(** * GEE score-test simulation

    A shallow embedding of [examples/python/gee_score_test_simulation.py]:
    the copula generator of correlated negative-binomial counts, the
    Monte Carlo driver [dosim] and the reporting script around it.

    Conventions of the embedding.
    - In the script as a whole Python floats are rendered as real numbers
      [R]: arithmetic is exact, and the only non-finite value kept is the
      [NaN] that [np.mean] returns on an empty array.  The script calls
      [negbinom] with the one dispersion [scale = 10], where this
      rendering and the code agree up to rounding.
    - What [negbinom] does as a function of its own arguments depends on
      binary64 arithmetic (rounding, infinities, a quotient that rounds
      to 1): the module [F64] renders lines 45-49 on the kernel's
      binary64 floats, and the statements about [negbinom] for arbitrary
      [scale] are made there.
    - A Python exception is an [outcome] other than [Ok]; nothing in the
      script catches one, so a raised exception ends the run.
    - NumPy, SciPy, statsmodels, pandas and matplotlib are collaborators:
      their operations are the fields of the class [Collaborators], any
      state they keep between calls (the process-wide generator of
      [np.random], a covariance-structure object shared by several models)
      is the abstract [lib_state], and every call is recorded, with its
      arguments and its result, in the [trace] of the [world]. *)

From Stdlib Require Import String.
From Stdlib Require Import Reals Lra Lia List Arith Bool ZArith.
From Stdlib Require Floats.
Import ListNotations.
Import (notations) PrimFloat.
Local Open Scope R_scope.

(** ** Outcomes of Python code *)

(** The exceptions of the script, and [NonFinite]: no exception of
    Python, but the mark of a value (an infinity or a nan) that the
    real-number rendering cannot hold.  The code goes on with such a
    value; the real-number rendering stops there. *)
Inductive exn : Type :=
| ZeroDivisionError
| ValueError
| IndexError
| NonFinite.

Inductive outcome (A : Type) : Type :=
| Ok (a : A)
| Raise (e : exn).

Arguments Ok {A} a.
Arguments Raise {A} e.

Definition obind {A B : Type} (c : outcome A) (k : A -> outcome B) : outcome B :=
  match c with
  | Ok a => k a
  | Raise e => Raise e
  end.

Fixpoint omap {A B : Type} (f : A -> outcome B) (l : list A) : outcome (list B) :=
  match l with
  | [] => Ok []
  | a :: l' => obind (f a) (fun b => obind (omap f l') (fun bs => Ok (b :: bs)))
  end.

(** A float as [np.mean] returns it. *)
Inductive npfloat : Type :=
| Finite (v : R)
| NaN.

(** [a / b] on Python scalars. *)
Definition py_div (a b : R) : outcome R :=
  if Req_dec_T b 0 then Raise ZeroDivisionError else Ok (a / b).

(** [a // b] on non-negative Python ints. *)
Definition py_floordiv (a b : nat) : outcome nat :=
  if Nat.eqb b 0 then Raise ZeroDivisionError else Ok (a / b)%nat.

(** [l[i]] on a Python list, [i >= 0]. *)
Definition py_index {A : Type} (l : list A) (i : nat) : outcome A :=
  match nth_error l i with
  | Some a => Ok a
  | None => Raise IndexError
  end.

(** [ls[i].append(v)] on a list of lists. *)
Definition append_at (i : nat) (v : R) (ls : list (list R)) : outcome (list (list R)) :=
  match nth_error ls i with
  | Some l => Ok (firstn i ls ++ (l ++ [v]) :: skipn (S i) ls)
  | None => Raise IndexError
  end.

(** ** The NumPy array operations the script uses, on one-dimensional
    arrays as lists and on matrices as lists of rows *)

Module Np.

Definition ltb (a b : R) : bool := if Rlt_dec a b then true else false.

Definition zip_with (f : R -> R -> R) (a b : list R) : list R :=
  map (fun ab => f (fst ab) (snd ab)) (combine a b).

(** [np.arange(a / b)] for non-negative ints [a], [b > 0]: the true
    quotient is a float and [arange] counts up to its ceiling. *)
Definition arange_div (a b : nat) : list R := map INR (seq 0 ((a + b - 1) / b)).

Definition ones (k : nat) : list R := repeat 1 k.

(** [np.kron] of two vectors. *)
Definition kron (a b : list R) : list R :=
  flat_map (fun ai => map (fun bj => ai * bj) b) a.

(** [c * a] with a scalar [c]. *)
Definition scal (c : R) (a : list R) : list R := map (fun v => c * v) a.

(** An elementwise binary operation under NumPy's broadcasting rule for
    two vectors: equal lengths, or one of them of length one. *)
Definition broadcast2 (f : R -> R -> R) (a b : list R) : outcome (list R) :=
  if Nat.eqb (length a) (length b) then Ok (zip_with f a b)
  else match a, b with
       | [a0], _ => Ok (map (f a0) b)
       | _, [b0] => Ok (map (fun ai => f ai b0) a)
       | _, _ => Raise ValueError
       end.

Definition add (a b : list R) : outcome (list R) := broadcast2 Rplus a b.

(** [a / c] with a scalar divisor.  NumPy divides elementwise and raises
    nothing: on a zero divisor it warns and goes on with infinities or
    nans, which [R] does not have, so that the real-number rendering
    ends there with [NonFinite] (the binary64 rendering [F64] goes on as
    the code does).  An empty array divides nothing. *)
Definition div_scalar (a : list R) (c : R) : outcome (list R) :=
  omap (fun v => if Req_dec_T c 0 then Raise NonFinite else Ok (v / c)) a.

(** Broadcasting a parameter vector to an output of [size] elements. *)
Definition broadcast_to (size : nat) (a : list R) : outcome (list R) :=
  if Nat.eqb (length a) size then Ok a
  else match a with
       | [a0] => Ok (repeat a0 size)
       | _ => Raise ValueError
       end.

Definition sum (l : list R) : R := fold_right Rplus 0 l.

(** [np.mean]: the sum over the number of elements, [nan] on an empty
    array. *)
Definition mean (l : list R) : npfloat :=
  match l with
  | [] => NaN
  | _ :: _ => Finite (sum l / INR (length l))
  end.

(** [a < c] with a scalar [c]: a boolean array. *)
Definition less (a : list R) (c : R) : list bool := map (fun v => ltb v c) a.

(** [np.mean] of a boolean array: [True] counts as 1. *)
Definition mean_bool (l : list bool) : npfloat :=
  mean (map (fun b : bool => if b then 1 else 0) l).

(** [np.reshape] of a flat array into rows of [cols] entries, row-major. *)
Fixpoint reshape (rows cols : nat) (flat : list R) : list (list R) :=
  match rows with
  | O => []
  | S rows' => firstn cols flat :: reshape rows' cols (skipn cols flat)
  end.

(** [X[:, 0] = v]; an empty row has no column 0. *)
Definition set_col0 (v : R) (X : list (list R)) : outcome (list (list R)) :=
  omap (fun row => match row with
                   | [] => Raise IndexError
                   | _ :: t => Ok (v :: t)
                   end) X.

(** [X[:, 0:k]]: slicing never raises. *)
Definition cols_upto (k : nat) (X : list (list R)) : list (list R) :=
  map (firstn k) X.

(** [np.dot(X, c)], matrix by vector: every row must be as long as [c]. *)
Definition dot (X : list (list R)) (c : list R) : outcome (list R) :=
  omap (fun row => if Nat.eqb (length row) (length c)
                   then Ok (sum (zip_with Rmult row c))
                   else Raise ValueError) X.

Definition exp (a : list R) : list R := map Rtrigo_def.exp a.

End Np.

(** ** Collaborators *)

Inductive cov_struct : Type :=
| Independence
| Exchangeable.

Inductive family : Type :=
| Poisson.

(** A [pandas.DataFrame] built from rows, an index and column names. *)
Record data_frame : Type := DataFrame {
  df_data : list (list npfloat);
  df_index : list string;
  df_columns : list string
}.

(** The library operations, each a function of the library's state where
    it may read or change it.  [random_gamma] takes the shape vector
    already broadcast to the requested size; [compare_score_test] returns
    the ["p-value"] entry of the result. *)
Class Collaborators : Type := {
  lib_state : Type;
  gee_model : Type;
  gee_results : Type;
  random_normal : nat -> lib_state -> list R * lib_state;
  random_gamma : list R -> R -> lib_state -> list R * lib_state;
  norm_cdf : R -> R;
  poisson_ppf : R -> R -> R;
  gee_new : list R -> list (list R) -> list R -> option cov_struct -> family ->
            lib_state -> gee_model * lib_state;
  gee_fit : gee_model -> string -> lib_state -> gee_results * lib_state;
  results_scale : gee_results -> R;
  compare_score_test : gee_model -> gee_results -> lib_state -> R * lib_state
}.

(** What the script relies on from them: samplers return as many values
    as asked for, and a p-value lies in [0, 1]. *)
Class Contracts (L : Collaborators) : Prop := {
  normal_size : forall k s, length (fst (random_normal k s)) = k;
  gamma_size : forall a c s, length (fst (random_gamma a c s)) = length a;
  p_value_range : forall md rs s, 0 <= fst (compare_score_test md rs s) <= 1
}.

Inductive event {L : Collaborators} : Type :=
| EvNormal (size : nat) (out : list R)
| EvGamma (shape : list R) (scl : R) (size : nat) (out : list R)
| EvGEE (endog : list R) (exog : list (list R)) (groups : list R)
        (cs : option cov_struct) (fam : family) (md : gee_model)
| EvFit (md : gee_model) (scale_method : string) (rs : gee_results)
| EvScoreTest (md : gee_model) (sub : gee_results) (p_value : R)
| EvPrint (tbl : data_frame)
| EvBoxplot (groups : list (list R))
| EvYlabel (label : string).

Record world {L : Collaborators} : Type := World {
  lib : lib_state;
  trace : list event
}.

(** ** The monad of the script: library state, trace, exceptions *)

Definition M {L : Collaborators} (A : Type) : Type := world -> outcome (A * world).

Definition ret {L : Collaborators} {A : Type} (a : A) : M A :=
  fun w => Ok (a, w).

Definition bind {L : Collaborators} {A B : Type} (c : M A) (k : A -> M B) : M B :=
  fun w => match c w with
           | Ok (a, w') => k a w'
           | Raise e => Raise e
           end.

Definition lift {L : Collaborators} {A : Type} (c : outcome A) : M A :=
  fun w => match c with
           | Ok a => Ok (a, w)
           | Raise e => Raise e
           end.

(** A library call: run it on the library state and log it. *)
Definition call {L : Collaborators} {A : Type}
    (f : lib_state -> A * lib_state) (ev : A -> event) : M A :=
  fun w => let (a, s') := f (lib w) in
           Ok (a, World L s' (trace w ++ [ev a])).

Notation "x <- c ;; k" := (bind c (fun x => k))
  (at level 61, c at next level, right associativity).
Notation "c ;;; k" := (bind c (fun _ => k))
  (at level 61, right associativity).

(** [for _ in range(k)] over a loop state. *)
Fixpoint for_range {L : Collaborators} {S : Type} (k : nat) (body : S -> M S) (st : S) : M S :=
  match k with
  | O => ret st
  | Datatypes.S k' => st' <- body st ;; for_range k' body st'
  end.

(** ** The script *)

Section Script.

Context {L : Collaborators}.

(** [np.random.normal(size=k)] *)
Definition np_random_normal (k : nat) : M (list R) :=
  call (random_normal k) (EvNormal k).

(** [np.random.gamma(shape, scale, size)]: NumPy refuses a negative shape
    or scale with [ValueError], and a shape vector that does not broadcast
    to [size]. *)
Definition np_random_gamma (shape : list R) (scl : R) (size : nat) : M (list R) :=
  if existsb (fun a => Np.ltb a 0) shape || Np.ltb scl 0 then lift (Raise ValueError)
  else
    shp <- lift (Np.broadcast_to size shape) ;;
    call (random_gamma shp scl) (EvGamma shape scl size).

(** [sm.GEE(endog, exog, groups=..., cov_struct=..., family=...)] *)
Definition sm_GEE (endog : list R) (exog : list (list R)) (groups : list R)
    (cs : option cov_struct) (fam : family) : M gee_model :=
  call (gee_new endog exog groups cs fam) (EvGEE endog exog groups cs fam).

(** [md.fit(scale=...)] *)
Definition sm_fit (md : gee_model) (scale_method : string) : M gee_results :=
  call (gee_fit md scale_method) (EvFit md scale_method).

(** [md.compare_score_test(sub)["p-value"]] *)
Definition sm_compare_score_test (md : gee_model) (sub : gee_results) : M R :=
  call (compare_score_test md sub) (EvScoreTest md sub).

Definition py_print (tbl : data_frame) : M unit :=
  fun w => Ok (tt, World L (lib w) (trace w ++ [EvPrint tbl])).

Definition plt_boxplot (groups : list (list R)) : M unit :=
  fun w => Ok (tt, World L (lib w) (trace w ++ [EvBoxplot groups])).

Definition plt_ylabel (label : string) : M unit :=
  fun w => Ok (tt, World L (lib w) (trace w ++ [EvYlabel label])).

(** *** [negbinom] (lines 45-49) *)

(** The first two lines of [negbinom] and the scale argument of the gamma
    call: [p], the shape vector [r] and [p / (1 - p)]. *)
Definition negbinom_params (mu : list R) (scale : R) : outcome (R * list R * R) :=
  obind (py_div (scale - 1) scale) (fun p =>
  obind (Np.div_scalar (map (fun v => v * (1 - p)) mu) p) (fun r =>
  obind (py_div p (1 - p)) (fun s =>
  Ok (p, r, s)))).

Definition negbinom (u mu : list R) (scale : R) : M (list R) :=
  prs <- lift (negbinom_params mu scale) ;;
  let '(_, r, s) := prs in
  x <- np_random_gamma r s (length u) ;;
  lift (Np.broadcast2 poisson_ppf u x).

(** *** Parameters (lines 55-99) *)

Definition n : nat := 1000.
Definition p : nat := 5.
Definition m : nat := 10.
Definition r : R := 5 / 10.
Definition scale : R := 10.

Definition coeff : list (list R) :=
  [[4; 4 / 10; - (2 / 10)]; [4; 4 / 10; - (2 / 10); 0; - (4 / 100)]].

(** The values the script computes once from its first random draw. *)
Record globals : Type := Globals {
  grp : list R;
  x : list (list R);
  x0 : list (list R);
  lp : list (list R);
  mu : list (list R)
}.

(** [grp = np.kron(np.arange(n / m), np.ones(m))] *)
Definition group_labels (n m : nat) : outcome (list R) :=
  if Nat.eqb m 0 then Raise ZeroDivisionError
  else Ok (Np.kron (Np.arange_div n m) (Np.ones m)).

(** Lines 68-99 for given [n], [p], [m].  The draw of the [n] by [p]
    matrix is one draw of [n * p] normals, laid out row by row.  In NumPy
    [x0] is a view of [x]; nothing writes to [x] after line 74, so the
    slice is taken by value. *)
Definition setup_with (n p m : nat) : M globals :=
  grp <- lift (group_labels n m) ;;
  flat <- np_random_normal (n * p) ;;
  x <- lift (Np.set_col0 1 (Np.reshape n p flat)) ;;
  let x0 := Np.cols_upto 3 x in
  c0 <- lift (py_index coeff 0) ;;
  c1 <- lift (py_index coeff 1) ;;
  lp0 <- lift (Np.dot x0 c0) ;;
  lp1 <- lift (Np.dot x c1) ;;
  let lp := [lp0; lp1] in
  e0 <- lift (py_index lp 0) ;;
  e1 <- lift (py_index lp 1) ;;
  ret (Globals grp x x0 lp [Np.exp e0; Np.exp e1]).

Definition setup : M globals := setup_with n p m.

(** *** The correlated-uniform generator (lines 119-123) *)

(** Line 122: [r * z + np.sqrt(1 - r**2) * u].  For [r] outside [-1, 1]
    NumPy's square root is [nan] where the library's [sqrt] is 0; the
    script keeps [r] inside. *)
Definition mix (r : R) (z u : list R) : outcome (list R) :=
  Np.add (Np.scal r z) (Np.scal (sqrt (1 - r ^ 2)) u).

Definition correlated_uniform (n m : nat) (r : R) : M (list R) :=
  z <- np_random_normal n ;;
  k <- lift (py_floordiv n m) ;;
  u <- np_random_normal k ;;
  let u := Np.kron u (Np.ones m) in
  z <- lift (mix r z u) ;;
  ret (map norm_cdf z).

(** *** [dosim] (lines 106-153) *)

(** The loop state: [scales] and [pv]. *)
Definition sim_state : Type := (list (list R) * list R)%type.

(** One pass of the Monte Carlo loop, lines 119-148. *)
Definition dosim_body (G : globals) (hyp : nat) (cov : option cov_struct)
    (st : sim_state) : M sim_state :=
  let '(scales, pv) := st in
  u <- correlated_uniform n m r ;;
  mu_h <- lift (py_index (mu G) hyp) ;;
  y <- negbinom u mu_h scale ;;
  m0 <- sm_GEE y (x0 G) (grp G) cov Poisson ;;
  r0 <- sm_fit m0 "X2" ;;
  scales <- lift (append_at 0 (results_scale r0) scales) ;;
  m1 <- sm_GEE y (x G) (grp G) cov Poisson ;;
  r1 <- sm_fit m1 "X2" ;;
  scales <- lift (append_at 1 (results_scale r1) scales) ;;
  pval <- sm_compare_score_test m1 r0 ;;
  ret (scales, pv ++ [pval]).

(** Lines 150-151. *)
Definition summary (pv : list R) : list npfloat :=
  [Np.mean pv; Np.mean_bool (Np.less pv (1 / 10))].

Definition default_mcrep : nat := 500.

(** [dosim(hyp, cov_struct=None, mcrep=500)]; [mcrep = None] is the call
    that leaves the replicate count to its default. *)
Definition dosim (G : globals) (hyp : nat) (cov : option cov_struct)
    (mcrep : option nat) : M (list npfloat * list (list R)) :=
  let mcrep := match mcrep with Some k => k | None => default_mcrep end in
  st <- for_range mcrep (dosim_body G hyp cov) ([[]; []], []) ;;
  let '(scales, pv) := st in
  ret (summary pv, scales).

(** *** Reporting (lines 163-196) *)

Definition report_state : Type := (list (list npfloat) * list (list (list R)))%type.

(** [for hyp in 0, 1: s, t = dosim(hyp, ...); rslt.append(s); scales.append(t)] *)
Fixpoint for_hyps (G : globals) (cov : option cov_struct) (mcrep : option nat)
    (hyps : list nat) (st : report_state) : M report_state :=
  match hyps with
  | [] => ret st
  | hyp :: rest =>
      st' <- dosim G hyp cov mcrep ;;
      for_hyps G cov mcrep rest (fst st ++ [fst st'], snd st ++ [snd st'])
  end.

(** One reporting cycle: both hypotheses, the two-row table, its print. *)
Definition report (G : globals) (cov : option cov_struct) (mcrep : option nat)
    : M (list (list (list R))) :=
  st <- for_hyps G cov mcrep [0%nat; 1%nat] ([], []) ;;
  let rslt := DataFrame (fst st) ["H0"%string; "H1"%string]
                        ["Mean"%string; "Prop(p<0.1)"%string] in
  py_print rslt ;;;
  ret (snd st).

(** [scales[i][j]] *)
Definition index2 (scales : list (list (list R))) (i j : nat) : outcome (list R) :=
  obind (py_index scales i) (fun row => py_index row j).

Definition main : M unit :=
  G <- setup ;;
  scales <- report G (Some Independence) None ;;
  s00 <- lift (index2 scales 0 0) ;;
  s01 <- lift (index2 scales 0 1) ;;
  s10 <- lift (index2 scales 1 0) ;;
  s11 <- lift (index2 scales 1 1) ;;
  plt_boxplot [s00; s01; s10; s11] ;;;
  plt_ylabel "Estimated scale" ;;;
  report G (Some Exchangeable) (Some 100%nat) ;;;
  ret tt.

End Script.

(** ** Closed forms of the gamma parameters *)

Definition nb_p (scale : R) : R := (scale - 1) / scale.

Definition nb_shape (mu : list R) (scale : R) : list R :=
  map (fun v => v * (1 - nb_p scale) / nb_p scale) mu.

Definition nb_scale (scale : R) : R := nb_p scale / (1 - nb_p scale).

(** ** What the runs leave behind: replicates and their traces *)

Section Specification.

Context {L : Collaborators}.

(** The values one replicate obtains from the libraries, in call order. *)
Record replicate : Type := Replicate {
  rep_z : list R;
  rep_u : list R;
  rep_x : list R;
  rep_m0 : gee_model;
  rep_r0 : gee_results;
  rep_m1 : gee_model;
  rep_r1 : gee_results;
  rep_pv : R
}.

(** The correlated uniforms of lines 121-123. *)
Definition rep_uniform (rc : replicate) : list R :=
  map norm_cdf
    (Np.zip_with Rplus (Np.scal r (rep_z rc))
       (Np.scal (sqrt (1 - r ^ 2)) (Np.kron (rep_u rc) (Np.ones m)))).

(** The responses of line 126. *)
Definition rep_y (rc : replicate) : list R :=
  Np.zip_with poisson_ppf (rep_uniform rc) (rep_x rc).

Definition null_scale (rc : replicate) : R := results_scale (rep_r0 rc).

Definition alt_scale (rc : replicate) : R := results_scale (rep_r1 rc).

(** The library calls of one replicate with mean vector [mu_h]. *)
Definition replicate_events (G : globals) (mu_h : list R) (cov : option cov_struct)
    (rc : replicate) : list event :=
  [ EvNormal n (rep_z rc);
    EvNormal (n / m) (rep_u rc);
    EvGamma (nb_shape mu_h scale) (nb_scale scale) n (rep_x rc);
    EvGEE (rep_y rc) (x0 G) (grp G) cov Poisson (rep_m0 rc);
    EvFit (rep_m0 rc) "X2" (rep_r0 rc);
    EvGEE (rep_y rc) (x G) (grp G) cov Poisson (rep_m1 rc);
    EvFit (rep_m1 rc) "X2" (rep_r1 rc);
    EvScoreTest (rep_m1 rc) (rep_r0 rc) (rep_pv rc) ].

Definition replicate_ok (rc : replicate) : Prop :=
  length (rep_z rc) = n /\ length (rep_u rc) = (n / m)%nat /\
  length (rep_x rc) = n /\ length (rep_y rc) = n /\
  0 <= rep_pv rc <= 1.

(** The mean vectors as [dosim] needs them: one per hypothesis, of
    length [n], positive. *)
Definition globals_ok (G : globals) : Prop :=
  length (mu G) = 2%nat /\
  Forall (fun mu_h => length mu_h = n /\ Forall (fun v => 0 < v) mu_h) (mu G).


(** The calls of a whole [dosim] run, replicate after replicate. *)
Definition dosim_events (G : globals) (mu_h : list R) (cov : option cov_struct)
    (recs : list replicate) : list event :=
  flat_map (replicate_events G mu_h cov) recs.

(** What [dosim] returns after the replicates [recs]. *)
Definition dosim_value (recs : list replicate) : list npfloat * list (list R) :=
  (summary (map rep_pv recs), [map null_scale recs; map alt_scale recs]).

Definition replicate_count (mcrep : option nat) : nat :=
  match mcrep with
  | Some k => k
  | None => default_mcrep
  end.

(** The alternative design is [n] by [p] with first column 1 and the null
    design is its first three columns. *)
Definition design_ok (G : globals) : Prop :=
  length (x G) = n /\
  Forall (fun row => length row = p /\ nth_error row 0 = Some 1) (x G) /\
  x0 G = map (firstn 3) (x G).

(** Cluster [c] labels the [m] consecutive observations [c * m, ..., c * m + m - 1]. *)
Definition groups_ok (G : globals) : Prop :=
  grp G = flat_map (fun c => repeat (INR c) m) (seq 0 (n / m)).

(** The two-row table of one cycle. *)
Definition report_table (recs0 recs1 : list replicate) : data_frame :=
  DataFrame [fst (dosim_value recs0); fst (dosim_value recs1)]
            ["H0"%string; "H1"%string] ["Mean"%string; "Prop(p<0.1)"%string].

(** The calls of one cycle: the replicates under H0, those under H1, the
    print of the table. *)
Definition report_events (G : globals) (mu0 mu1 : list R) (cov : option cov_struct)
    (recs0 recs1 : list replicate) : list event :=
  dosim_events G mu0 cov recs0 ++ dosim_events G mu1 cov recs1 ++
  [EvPrint (report_table recs0 recs1)].

(** The four groups of the box plot. *)
Definition boxplot_groups (recs0 recs1 : list replicate) : list (list R) :=
  [map null_scale recs0; map alt_scale recs0; map null_scale recs1; map alt_scale recs1].

(** The calls of the whole script after the draw [flat] of the design. *)
Definition main_events (G : globals) (flat mu0 mu1 : list R)
    (a0 a1 b0 b1 : list replicate) : list event :=
  [EvNormal (n * p) flat] ++
  report_events G mu0 mu1 (Some Independence) a0 a1 ++
  [EvBoxplot (boxplot_groups a0 a1); EvYlabel "Estimated scale"] ++
  report_events G mu0 mu1 (Some Exchangeable) b0 b1.

(** A model is built on one of the two design matrices and on the group
    vector of the globals. *)
Definition gee_inputs_fixed (G : globals) (ev : event) : Prop :=
  match ev with
  | EvGEE _ exog groups _ _ _ => (exog = x0 G \/ exog = x G) /\ groups = grp G
  | _ => True
  end.

End Specification.

(** ** A deterministic stand-in for the libraries

    Every sampler returns constants and counts its calls; it meets the
    [Contracts] and serves to run the script on concrete inputs. *)

Definition stub_library : Collaborators := {|
  lib_state := nat;
  gee_model := list R;
  gee_results := R;
  random_normal := fun k s => (repeat 0 k, S s);
  random_gamma := fun a _ s => (map (fun _ => 1) a, S s);
  norm_cdf := fun _ => 1 / 2;
  poisson_ppf := fun _ _ => 0;
  gee_new := fun endog _ _ _ _ s => (endog, S s);
  gee_fit := fun _ _ s => (1, S s);
  results_scale := fun rs => rs;
  compare_score_test := fun _ _ s => (1 / 2, S s)
|}.

(** Globals with unit means, for running [dosim] on the stand-in. *)
Definition unit_globals : globals :=
  Globals [] [] [] [] [repeat 1 n; repeat 1 n].

Definition stub_world : @world stub_library := World stub_library 0%nat [].


(** ** [negbinom] in binary64 (lines 45-49)

    The arguments of [negbinom] are Python floats and NumPy arrays of
    binary64 floats; the kernel's primitive floats are binary64 with
    round-to-nearest-even, as they are.  [scale] is a Python float (a
    Python int such as the script's [scale = 10] gives the same quotient
    [(scale - 1) / scale]). *)

Module F64.

Local Open Scope float_scope.

Definition float : Set := PrimFloat.float.

(** A whole number as a float. *)
Definition of_Z (k : Z) : float := PrimFloat.of_uint63 (Uint63Axioms.of_Z k).

(** [a / b] on Python floats: a zero divisor, of either sign, raises. *)
Definition py_div (a b : float) : outcome float :=
  if b =? 0 then Raise ZeroDivisionError else Ok (a / b).

(** The test of [np.random.gamma] on a parameter ("shape < 0",
    "scale < 0"): it refuses an entry that is not nan and has its sign
    bit set. *)
Definition negative (v : float) : bool :=
  match PrimFloat.classify v with
  | FloatClass.NInf | FloatClass.NNormal | FloatClass.NSubn | FloatClass.NZero => true
  | _ => false
  end.

(** Broadcasting a parameter vector to an output of [size] elements. *)
Definition broadcast_to (size : nat) (a : list float) : outcome (list float) :=
  if Nat.eqb (length a) size then Ok a
  else match a with
       | [a0] => Ok (repeat a0 size)
       | _ => Raise ValueError
       end.

(** An elementwise binary function under NumPy's broadcasting rule for
    two vectors. *)
Definition broadcast2 (f : float -> float -> float) (a b : list float) : outcome (list float) :=
  if Nat.eqb (length a) (length b)
  then Ok (map (fun ab => f (fst ab) (snd ab)) (combine a b))
  else match a, b with
       | [a0], _ => Ok (map (f a0) b)
       | _, [b0] => Ok (map (fun ai => f ai b0) a)
       | _, _ => Raise ValueError
       end.

(** A float that is a whole number, not negative. *)
Definition is_count (y : float) : Prop := exists k : Z, (0 <= k)%Z /\ y = of_Z k.

(** The largest Poisson mean for which the quantile contract is stated. *)
Definition mean_bound : float := 1000000.

(** The gamma sampler and the Poisson quantile function, on floats. *)
Class Sampler : Type := {
  sampler_state : Type;
  gamma64 : list float -> float -> sampler_state -> list float * sampler_state;
  ppf64 : float -> float -> float
}.

(** The sampler returns as many values as shapes; a Poisson quantile at a
    level in (0, 1) and a mean in (0, [mean_bound]] is a whole number, not
    negative. *)
Class SamplerContracts (S : Sampler) : Prop := {
  gamma64_size : forall a c s, length (fst (gamma64 a c s)) = length a;
  ppf64_count : forall q lam,
    (0 <? q) = true -> (q <? 1) = true ->
    (0 <? lam) = true -> (lam <=? mean_bound) = true ->
    is_count (ppf64 q lam)
}.

Inductive gamma_call : Type :=
| GammaCall (shape : list float) (scl : float) (size : nat) (out : list float).

Record world {S : Sampler} : Type := World {
  lib : sampler_state;
  trace : list gamma_call
}.

(** [np.random.gamma(shape, scale, size)] *)
Definition np_random_gamma {S : Sampler} (shape : list float) (scl : float) (size : nat)
    (w : world) : outcome (list float * world) :=
  if existsb negative shape || negative scl then Raise ValueError
  else obind (broadcast_to size shape) (fun shp =>
       let (x, s') := gamma64 shp scl (lib w) in
       Ok (x, World S s' (trace w ++ [GammaCall shape scl size x]))).

(** Lines 46-48 up to the gamma call: [p], the shapes [r] and
    [p / (1 - p)].  Line 47 divides a NumPy array: a zero divisor gives
    infinities or nans and no exception. *)
Definition negbinom_params (mu : list float) (scale : float) : outcome (float * list float * float) :=
  obind (py_div (scale - 1) scale) (fun p =>
  let r := map (fun v => v * (1 - p) / p) mu in
  obind (py_div p (1 - p)) (fun s =>
  Ok (p, r, s))).

Definition negbinom {S : Sampler} (u mu : list float) (scale : float) (w : world)
    : outcome (list float * world) :=
  obind (negbinom_params mu scale) (fun prs =>
  let '(_, r, s) := prs in
  obind (np_random_gamma r s (length u) w) (fun xw =>
  obind (broadcast2 ppf64 u (fst xw)) (fun y =>
  Ok (y, snd xw)))).

(** [x] within [j] units in the last place of [m]. *)
Definition within_ulps (j : nat) (x m : float) : bool :=
  (Nat.iter j PrimFloat.next_down m <=? x) && (x <=? Nat.iter j PrimFloat.next_up m).

(** The whole numbers [lo, lo + 1, ..., lo + len - 1]. *)
Definition whole_numbers (lo : Z) (len : nat) : list Z :=
  map (fun i => (lo + Z.of_nat i)%Z) (seq 0 len).

(** What lines 46-48 give for the whole-number dispersion [k] and the
    whole-number mean [m]: no exception, [p] and [1 - p] strictly between
    0 and 1, a positive finite shape and gamma scale that pass the
    sampler's sign test, and a product within two units in the last
    place of the mean. *)
Definition params_check (k m : Z) : bool :=
  match negbinom_params [of_Z m] (of_Z k) with
  | Ok (p, [a], s) =>
      (0 <? p) && (p <? 1) && (0 <? 1 - p) && (1 - p <? 1) &&
      (0 <? a) && (a <? PrimFloat.infinity) && (0 <? s) && (s <? PrimFloat.infinity) &&
      negb (negative a) && negb (negative s) &&
      within_ulps 2 (a * s) (of_Z m)
  | _ => false
  end.

(** A sampler that returns constants and counts its calls. *)
Definition stub_sampler : Sampler := {|
  sampler_state := nat;
  gamma64 := fun a _ s => (map (fun _ => 1) a, S s);
  ppf64 := fun _ _ => 0
|}.

Definition stub_world : @world stub_sampler := World stub_sampler 0%nat [].

End F64.

(** ** A library whose normal draws give a design of full column rank

    The draws are 0 except at the flat positions 6, 12, 18 and 24, so that
    the rows 1 to 4 of the design are [1, 1, 0, 0, 0], [1, 0, 1, 0, 0],
    [1, 0, 0, 1, 0] and [1, 0, 0, 0, 1] and all others [1, 0, 0, 0, 0]. *)




(** ** Kinds of library calls, for counting them in a trace *)

Inductive call_kind : Type :=
| KNormal
| KGamma
| KGEE
| KFit
| KScoreTest
| KOutput.

Definition kind_of {L : Collaborators} (ev : event) : call_kind :=
  match ev with
  | EvNormal _ _ => KNormal
  | EvGamma _ _ _ _ => KGamma
  | EvGEE _ _ _ _ _ _ => KGEE
  | EvFit _ _ _ => KFit
  | EvScoreTest _ _ _ => KScoreTest
  | EvPrint _ => KOutput
  | EvBoxplot _ => KOutput
  | EvYlabel _ => KOutput
  end.

Definition same_kind (a b : call_kind) : bool :=
  match a, b with
  | KNormal, KNormal => true
  | KGamma, KGamma => true
  | KGEE, KGEE => true
  | KFit, KFit => true
  | KScoreTest, KScoreTest => true
  | KOutput, KOutput => true
  | _, _ => false
  end.

(** How many calls of kind [k] a trace holds. *)
Definition count_kind {L : Collaborators} (k : call_kind) (evs : list event) : nat :=
  length (filter (fun ev => same_kind k (kind_of ev)) evs).

(** ** Outcomes and arithmetic *)

Lemma py_div_ok (a b : R) : b <> 0 -> py_div a b = Ok (a / b).
Proof.
  intros Hb. unfold py_div. destruct (Req_dec_T b 0) as [E | _]; [contradiction | reflexivity].
Qed.

Lemma py_div_zero (a : R) : py_div a 0 = Raise ZeroDivisionError.
Proof.
  unfold py_div. destruct (Req_dec_T 0 0) as [_ | N]; [reflexivity | contradiction].
Qed.

Lemma div_scalar_ok (a : list R) (c : R) :
  c <> 0 -> Np.div_scalar a c = Ok (map (fun v => v / c) a).
Proof.
  intros Hc. unfold Np.div_scalar.
  induction a as [| v a IH]; simpl; [reflexivity |].
  destruct (Req_dec_T c 0) as [E | _]; [contradiction |].
  simpl. rewrite IH. reflexivity.
Qed.

Lemma ltb_true (a b : R) : a < b -> Np.ltb a b = true.
Proof.
  intros H. unfold Np.ltb. destruct (Rlt_dec a b); [reflexivity | contradiction].
Qed.

Lemma ltb_false (a b : R) : b <= a -> Np.ltb a b = false.
Proof.
  intros H. unfold Np.ltb. destruct (Rlt_dec a b); [lra | reflexivity].
Qed.

Lemma nb_p_range (scale : R) : 1 < scale -> 0 < nb_p scale < 1.
Proof.
  intros Hs. unfold nb_p. split.
  - apply Rdiv_lt_0_compat; lra.
  - apply (Rmult_lt_reg_r scale); [lra |].
    unfold Rdiv. rewrite Rmult_assoc, Rinv_l by lra. lra.
Qed.

Lemma nb_p_complement (scale : R) : scale <> 0 -> 1 - nb_p scale = 1 / scale.
Proof.
  intros Hs. unfold nb_p. field. exact Hs.
Qed.

Lemma negbinom_params_ok (mu : list R) (scale : R) :
  scale <> 0 -> scale <> 1 ->
  negbinom_params mu scale = Ok (nb_p scale, nb_shape mu scale, nb_scale scale).
Proof.
  intros H0 H1.
  assert (Hp : nb_p scale <> 0).
  { unfold nb_p, Rdiv. apply Rmult_integral_contrapositive_currified.
    - lra.
    - apply Rinv_neq_0_compat. exact H0. }
  assert (Hq : 1 - nb_p scale <> 0).
  { rewrite nb_p_complement by exact H0. unfold Rdiv. rewrite Rmult_1_l.
    apply Rinv_neq_0_compat. exact H0. }
  unfold negbinom_params. rewrite (py_div_ok _ _ H0). simpl.
  fold (nb_p scale). rewrite (div_scalar_ok _ _ Hp). simpl.
  rewrite (py_div_ok _ _ Hq). simpl.
  unfold nb_shape, nb_scale. rewrite map_map. reflexivity.
Qed.

Lemma nb_shape_pos (mu : list R) (scale : R) :
  1 < scale -> Forall (fun v => 0 < v) mu -> Forall (fun v => 0 < v) (nb_shape mu scale).
Proof.
  intros Hs Hmu. pose proof (nb_p_range scale Hs) as [Hp0 Hp1].
  unfold nb_shape. apply Forall_map.
  eapply Forall_impl; [| exact Hmu]. cbv beta. intros v Hv.
  apply Rdiv_lt_0_compat; [| exact Hp0].
  apply Rmult_lt_0_compat; lra.
Qed.

Lemma nb_scale_pos (scale : R) : 1 < scale -> 0 < nb_scale scale.
Proof.
  intros Hs. pose proof (nb_p_range scale Hs) as [Hp0 Hp1].
  unfold nb_scale. apply Rdiv_lt_0_compat; lra.
Qed.

Lemma nb_shape_times_scale (mu : list R) (scale : R) :
  1 < scale -> map (fun a => a * nb_scale scale) (nb_shape mu scale) = mu.
Proof.
  intros Hs. pose proof (nb_p_range scale Hs) as [Hp0 Hp1].
  unfold nb_shape, nb_scale. rewrite map_map.
  induction mu as [| v mu IH]; simpl; [reflexivity |].
  rewrite IH. f_equal. field. split; lra.
Qed.

Lemma square_pos (a : R) : a <> 0 -> 0 < a * a.
Proof.
  intros Ha. destruct (Rtotal_order a 0) as [H | [H | H]]; [nra | contradiction | nra].
Qed.

(** For [scale < 1], [scale <> 0]: [p] lies outside [0, 1) on the side that
    makes both gamma parameters negative. *)
Lemma nb_p_below (scale : R) :
  scale < 1 -> scale <> 0 -> nb_p scale * (1 - nb_p scale) < 0.
Proof.
  intros Hs H0. rewrite (nb_p_complement _ H0). unfold nb_p.
  replace ((scale - 1) / scale * (1 / scale)) with (- ((1 - scale) * (/ scale * / scale)))
    by (field; exact H0).
  apply Ropp_lt_gt_0_contravar. apply Rmult_gt_0_compat; [lra |].
  apply square_pos. apply Rinv_neq_0_compat. exact H0.
Qed.

Lemma quotient_neg (a b : R) : a * b < 0 -> a / b < 0.
Proof.
  intros H.
  assert (Hb : b <> 0) by (intros E; rewrite E, Rmult_0_r in H; lra).
  replace (a / b) with (a * b * (/ b * / b)) by (field; exact Hb).
  assert (Hi : 0 < / b * / b) by (apply square_pos, Rinv_neq_0_compat; exact Hb).
  nra.
Qed.

Lemma nb_scale_neg (scale : R) : scale < 1 -> scale <> 0 -> nb_scale scale < 0.
Proof.
  intros Hs H0. unfold nb_scale. apply quotient_neg. apply nb_p_below; assumption.
Qed.

Lemma nb_shape_neg (mu : list R) (scale : R) :
  scale < 1 -> scale <> 0 -> Forall (fun v => 0 < v) mu ->
  Forall (fun v => v < 0) (nb_shape mu scale).
Proof.
  intros Hs H0 Hmu. pose proof (nb_p_below scale Hs H0) as Hpq.
  unfold nb_shape. apply Forall_map.
  eapply Forall_impl; [| exact Hmu]. cbv beta. intros v Hv.
  apply quotient_neg. nra.
Qed.

(** ** Running the monad *)

Section Runs.

Context {L : Collaborators}.

Lemma bind_run {A B : Type} (c : M A) (k : A -> M B) (w w' : world) (a : A) :
  c w = Ok (a, w') -> bind c k w = k a w'.
Proof.
  intros H. unfold bind. rewrite H. reflexivity.
Qed.

Lemma bind_raise {A B : Type} (c : M A) (k : A -> M B) (w : world) (e : exn) :
  c w = Raise e -> bind c k w = Raise e.
Proof.
  intros H. unfold bind. rewrite H. reflexivity.
Qed.

Lemma lift_run {A B : Type} (a : A) (k : A -> M B) (w : world) :
  bind (lift (Ok a)) k w = k a w.
Proof. reflexivity. Qed.

Lemma call_run {A B : Type} (f : lib_state -> A * lib_state) (ev : A -> event)
    (k : A -> M B) (w : world) :
  bind (call f ev) k w =
  k (fst (f (lib w))) (World L (snd (f (lib w))) (trace w ++ [ev (fst (f (lib w)))])).
Proof.
  unfold bind, call. destruct (f (lib w)) as [a s']. reflexivity.
Qed.

Lemma call_end {A : Type} (f : lib_state -> A * lib_state) (ev : A -> event) (w : world) :
  call f ev w =
  Ok (fst (f (lib w)), World L (snd (f (lib w))) (trace w ++ [ev (fst (f (lib w)))])).
Proof.
  unfold call. destruct (f (lib w)) as [a s']. reflexivity.
Qed.

Lemma existsb_ltb_nonneg (a : list R) :
  Forall (fun v => 0 <= v) a -> existsb (fun v => Np.ltb v 0) a = false.
Proof.
  induction 1 as [| v a Hv _ IH]; simpl; [reflexivity |].
  rewrite (ltb_false _ _ Hv), IH. reflexivity.
Qed.

Lemma existsb_ltb_neg (a : list R) :
  a <> [] -> Forall (fun v => v < 0) a -> existsb (fun v => Np.ltb v 0) a = true.
Proof.
  intros Hne Ha. destruct Ha as [| v a Hv _]; [congruence |].
  simpl. rewrite (ltb_true _ _ Hv). reflexivity.
Qed.

Lemma Forall_pos_nonneg (a : list R) :
  Forall (fun v => 0 < v) a -> Forall (fun v => 0 <= v) a.
Proof.
  apply Forall_impl. intros v Hv. lra.
Qed.

Lemma zip_with_length (f : R -> R -> R) (a b : list R) :
  length a = length b -> length (Np.zip_with f a b) = length a.
Proof.
  intros H. unfold Np.zip_with. rewrite length_map, length_combine, <- H.
  apply Nat.min_id.
Qed.

Lemma broadcast2_same (f : R -> R -> R) (a b : list R) :
  length a = length b -> Np.broadcast2 f a b = Ok (Np.zip_with f a b).
Proof.
  intros H. unfold Np.broadcast2. rewrite H, Nat.eqb_refl. reflexivity.
Qed.

Lemma broadcast_to_same (a : list R) : Np.broadcast_to (length a) a = Ok a.
Proof.
  unfold Np.broadcast_to. rewrite Nat.eqb_refl. reflexivity.
Qed.

(** A valid gamma call draws from the library and logs the draw. *)
Lemma np_random_gamma_run {B : Type} (shape : list R) (scl : R) (k : list R -> M B) (w : world) :
  Forall (fun v => 0 <= v) shape -> 0 <= scl ->
  bind (np_random_gamma shape scl (length shape)) k w =
  k (fst (random_gamma shape scl (lib w)))
    (World L (snd (random_gamma shape scl (lib w)))
       (trace w ++ [EvGamma shape scl (length shape) (fst (random_gamma shape scl (lib w)))])).
Proof.
  intros Hs Hc. unfold np_random_gamma.
  rewrite (existsb_ltb_nonneg _ Hs), (ltb_false _ _ Hc). simpl.
  rewrite broadcast_to_same. unfold bind at 1. rewrite lift_run.
  rewrite call_end. reflexivity.
Qed.

Lemma nb_shape_length (mu : list R) (scale : R) : length (nb_shape mu scale) = length mu.
Proof.
  unfold nb_shape. apply length_map.
Qed.

(** [negbinom] under its precondition: one gamma draw, then the Poisson
    quantiles elementwise. *)
Lemma negbinom_run {HL : Contracts L} (u mu : list R) (scale : R) (w : world) :
  1 < scale -> Forall (fun v => 0 < v) mu -> length mu = length u ->
  negbinom u mu scale w =
  Ok (Np.zip_with poisson_ppf u (fst (random_gamma (nb_shape mu scale) (nb_scale scale) (lib w))),
      World L (snd (random_gamma (nb_shape mu scale) (nb_scale scale) (lib w)))
        (trace w ++ [EvGamma (nb_shape mu scale) (nb_scale scale) (length u)
                       (fst (random_gamma (nb_shape mu scale) (nb_scale scale) (lib w)))])).
Proof.
  intros Hs Hmu Hlen. unfold negbinom.
  rewrite negbinom_params_ok by lra. rewrite lift_run.
  rewrite <- Hlen, <- (nb_shape_length mu scale).
  rewrite np_random_gamma_run.
  - unfold lift. rewrite broadcast2_same; [reflexivity |].
    rewrite gamma_size, nb_shape_length. symmetry. exact Hlen.
  - apply Forall_pos_nonneg, nb_shape_pos; assumption.
  - apply Rlt_le, nb_scale_pos. exact Hs.
Qed.

End Runs.

(** ** The mixing step at the ends of the range of [r] *)

Lemma zip_scal_one_zero (z u : list R) :
  length z = length u ->
  Np.zip_with Rplus (Np.scal 1 z) (Np.scal 0 u) = z.
Proof.
  revert u. induction z as [| a z IH]; intros [| b u] Hlen; simpl in Hlen; try discriminate.
  - reflexivity.
  - unfold Np.zip_with, Np.scal in *. simpl. rewrite IH by lia. f_equal. lra.
Qed.

Lemma zip_scal_zero_one (z u : list R) :
  length z = length u ->
  Np.zip_with Rplus (Np.scal 0 z) (Np.scal 1 u) = u.
Proof.
  revert u. induction z as [| a z IH]; intros [| b u] Hlen; simpl in Hlen; try discriminate.
  - reflexivity.
  - unfold Np.zip_with, Np.scal in *. simpl. rewrite IH by lia. f_equal. lra.
Qed.

Lemma scal_length (c : R) (a : list R) : length (Np.scal c a) = length a.
Proof.
  unfold Np.scal. apply length_map.
Qed.

Lemma mix_same (r : R) (z u : list R) :
  length z = length u ->
  mix r z u = Ok (Np.zip_with Rplus (Np.scal r z) (Np.scal (sqrt (1 - r ^ 2)) u)).
Proof.
  intros Hlen. unfold mix, Np.add. apply broadcast2_same.
  rewrite !scal_length. exact Hlen.
Qed.

(** With [r = 1] the cluster-level vector [u] drops out. *)
Lemma mix_r_one (z u : list R) : length z = length u -> mix 1 z u = Ok z.
Proof.
  intros Hlen. rewrite (mix_same _ _ _ Hlen).
  replace (1 - 1 ^ 2) with 0 by lra. rewrite sqrt_0.
  rewrite (zip_scal_one_zero _ _ Hlen). reflexivity.
Qed.

(** With [r = 0] the per-observation vector [z] drops out. *)
Lemma mix_r_zero (z u : list R) : length z = length u -> mix 0 z u = Ok u.
Proof.
  intros Hlen. rewrite (mix_same _ _ _ Hlen).
  replace (1 - 0 ^ 2) with 1 by lra. rewrite sqrt_1.
  rewrite (zip_scal_zero_one _ _ Hlen). reflexivity.
Qed.

(** ** The stand-in meets the contracts *)

Lemma stub_contracts : Contracts stub_library.
Proof.
  constructor; cbn.
  - intros k _. apply repeat_length.
  - intros a _ _. apply length_map.
  - intros _ _ _. lra.
Qed.

(** ** Claims on the generators *)

(** C1 (the code at the ends of the range of r).  One cluster of two
    observations, per-observation draws z = [0, 1], cluster-level draw
    u = [7]: with r = 1 line 122 returns z itself, whose two entries differ
    inside the cluster; with r = 0 it returns the cluster-level draw
    repeated, [7, 7], and not the per-observation draws.  The weights of
    line 122 are the other way round from what the claim describes. *)
Theorem mix_weights_at_r_one_and_zero :
  mix 1 [0; 1] (Np.kron [7] (Np.ones 2)) = Ok [0; 1] /\
  mix 0 [0; 1] (Np.kron [7] (Np.ones 2)) = Ok [7; 7] /\
  (0 : R) <> 1.
Proof.
  split; [| split].
  - apply mix_r_one. reflexivity.
  - rewrite mix_r_zero by reflexivity. simpl. rewrite Rmult_1_r. reflexivity.
  - lra.
Qed.

Section DosimRuns.

Context {L : Collaborators} {HL : Contracts L}.

Lemma kron_ones_length (a : list R) (k : nat) :
  length (Np.kron a (Np.ones k)) = (length a * k)%nat.
Proof.
  unfold Np.kron, Np.ones. induction a as [| v a IH]; simpl; [reflexivity |].
  rewrite length_app, length_map, repeat_length, IH. reflexivity.
Qed.

Lemma correlated_uniform_run {B : Type} (n m : nat) (r : R) (k : list R -> M B) (w : world) :
  m <> 0%nat -> n = (n / m * m)%nat ->
  bind (correlated_uniform n m r) k w =
  let z := random_normal n (lib w) in
  let u := random_normal (n / m) (snd z) in
  k (map norm_cdf
       (Np.zip_with Rplus (Np.scal r (fst z))
          (Np.scal (sqrt (1 - r ^ 2)) (Np.kron (fst u) (Np.ones m)))))
    (World L (snd u) (trace w ++ [EvNormal n (fst z); EvNormal (n / m) (fst u)])).
Proof.
  intros Hm Hn. unfold correlated_uniform, np_random_normal.
  unfold bind at 1. rewrite call_run.
  unfold py_floordiv. rewrite (proj2 (Nat.eqb_neq m 0) Hm). rewrite lift_run.
  rewrite call_run. cbn [lib trace].
  rewrite mix_same.
  - rewrite lift_run. unfold ret. cbv zeta. rewrite <- app_assoc. reflexivity.
  - rewrite kron_ones_length, !normal_size. exact Hn.
Qed.

Lemma bind_ret_end {A : Type} (c : M A) (w : world) : bind c ret w = c w.
Proof.
  unfold bind, ret. destruct (c w) as [[a w'] | e]; reflexivity.
Qed.

(** With [r = 1] the generator returns the normal CDF of the
    per-observation draw alone. *)
Lemma correlated_uniform_at_one (n m : nat) (w : world) :
  m <> 0%nat -> n = (n / m * m)%nat ->
  correlated_uniform n m 1 w =
  let z := random_normal n (lib w) in
  let u := random_normal (n / m) (snd z) in
  Ok (map norm_cdf (fst z),
      World L (snd u) (trace w ++ [EvNormal n (fst z); EvNormal (n / m) (fst u)])).
Proof.
  intros Hm Hn. rewrite <- bind_ret_end, (correlated_uniform_run n m 1 ret w Hm Hn).
  cbv zeta. unfold ret. replace (1 - 1 ^ 2) with 0 by lra. rewrite sqrt_0.
  rewrite zip_scal_one_zero; [reflexivity |].
  rewrite kron_ones_length, !normal_size. exact Hn.
Qed.

(** With [r = 0] it returns the normal CDF of the cluster-level draw,
    repeated over each cluster. *)
Lemma correlated_uniform_at_zero (n m : nat) (w : world) :
  m <> 0%nat -> n = (n / m * m)%nat ->
  correlated_uniform n m 0 w =
  let z := random_normal n (lib w) in
  let u := random_normal (n / m) (snd z) in
  Ok (map norm_cdf (Np.kron (fst u) (Np.ones m)),
      World L (snd u) (trace w ++ [EvNormal n (fst z); EvNormal (n / m) (fst u)])).
Proof.
  intros Hm Hn. rewrite <- bind_ret_end, (correlated_uniform_run n m 0 ret w Hm Hn).
  cbv zeta. unfold ret. replace (1 - 0 ^ 2) with 1 by lra. rewrite sqrt_1.
  rewrite zip_scal_zero_one; [reflexivity |].
  rewrite kron_ones_length, !normal_size. exact Hn.
Qed.

Lemma script_sizes : m <> 0%nat /\ n = (n / m * m)%nat.
Proof.
  split; [discriminate | reflexivity].
Qed.

Lemma scale_gt_1 : 1 < scale.
Proof.
  unfold scale. lra.
Qed.

Lemma uniform_length (z u : list R) :
  length z = n -> length u = (n / m)%nat ->
  length (map norm_cdf
            (Np.zip_with Rplus (Np.scal r z)
               (Np.scal (sqrt (1 - r ^ 2)) (Np.kron u (Np.ones m))))) = n.
Proof.
  intros Hz Hu. rewrite length_map, zip_with_length.
  - rewrite scal_length. exact Hz.
  - rewrite !scal_length, kron_ones_length, Hz, Hu. apply script_sizes.
Qed.

Lemma dosim_body_run (G : globals) (hyp : nat) (cov : option cov_struct)
    (mu_h s0 s1 pv : list R) (w : world) :
  py_index (mu G) hyp = Ok mu_h ->
  length mu_h = n -> Forall (fun v => 0 < v) mu_h ->
  exists rc s',
    replicate_ok rc /\
    dosim_body G hyp cov ([s0; s1], pv) w =
    Ok (([s0 ++ [null_scale rc]; s1 ++ [alt_scale rc]], pv ++ [rep_pv rc]),
        World L s' (trace w ++ replicate_events G mu_h cov rc)).
Proof.
  intros Hidx Hlen Hpos. destruct script_sizes as [Hm Hn].
  destruct (random_normal n (lib w)) as [z sa] eqn:Ez.
  destruct (random_normal (n / m) sa) as [u sb] eqn:Eu.
  assert (Hz : length z = n) by (rewrite <- (normal_size n (lib w)), Ez; reflexivity).
  assert (Hu : length u = (n / m)%nat) by (rewrite <- (normal_size (n / m) sa), Eu; reflexivity).
  set (uu := map norm_cdf
               (Np.zip_with Rplus (Np.scal r z)
                  (Np.scal (sqrt (1 - r ^ 2)) (Np.kron u (Np.ones m))))).
  assert (Huu : length uu = n) by (apply uniform_length; assumption).
  destruct (random_gamma (nb_shape mu_h scale) (nb_scale scale) sb) as [xs sc] eqn:Ex.
  assert (Hxs : length xs = n).
  { rewrite <- Hlen, <- (nb_shape_length mu_h scale),
      <- (gamma_size (nb_shape mu_h scale) (nb_scale scale) sb), Ex. reflexivity. }
  set (y := Np.zip_with poisson_ppf uu xs).
  destruct (gee_new y (x0 G) (grp G) cov Poisson sc) as [m0 sd] eqn:Em0.
  destruct (gee_fit m0 "X2" sd) as [r0 se] eqn:Er0.
  destruct (gee_new y (x G) (grp G) cov Poisson se) as [m1 sf] eqn:Em1.
  destruct (gee_fit m1 "X2" sf) as [r1 sg] eqn:Er1.
  destruct (compare_score_test m1 r0 sg) as [pval sh] eqn:Epv.
  exists (Replicate z u xs m0 r0 m1 r1 pval), sh.
  split.
  { unfold replicate_ok. cbn [rep_z rep_u rep_x rep_pv].
    repeat split; try assumption.
    - unfold rep_y, rep_uniform. cbn [rep_z rep_u rep_x]. fold uu.
      rewrite zip_with_length; [exact Huu | congruence].
    - pose proof (p_value_range m1 r0 sg) as Hr. rewrite Epv in Hr. apply Hr.
    - pose proof (p_value_range m1 r0 sg) as Hr. rewrite Epv in Hr. apply Hr. }
  unfold dosim_body.
  rewrite (correlated_uniform_run n m r _ w Hm Hn). cbv zeta.
  rewrite Ez. cbn [fst snd]. rewrite Eu. cbn [fst snd]. fold uu.
  rewrite Hidx, lift_run.
  erewrite bind_run; [| apply negbinom_run; [apply scale_gt_1 | exact Hpos | congruence]].
  cbn [lib trace]. rewrite Ex. cbn [fst snd]. fold y.
  unfold sm_GEE, sm_fit, sm_compare_score_test.
  rewrite call_run. cbn [lib trace]. rewrite Em0. cbn [fst snd].
  rewrite call_run. cbn [lib trace]. rewrite Er0. cbn [fst snd].
  unfold append_at at 1. cbn [nth_error firstn skipn app]. rewrite lift_run.
  rewrite call_run. cbn [lib trace]. rewrite Em1. cbn [fst snd].
  rewrite call_run. cbn [lib trace]. rewrite Er1. cbn [fst snd].
  unfold append_at at 1. cbn [nth_error firstn skipn app]. rewrite lift_run.
  rewrite call_run. cbn [lib trace]. rewrite Epv. cbn [fst snd].
  unfold ret, null_scale, alt_scale, replicate_events, rep_y, rep_uniform.
  cbn [rep_z rep_u rep_x rep_m0 rep_r0 rep_m1 rep_r1 rep_pv]. fold uu. fold y.
  rewrite Huu. repeat rewrite <- app_assoc. reflexivity.
Qed.

End DosimRuns.

Section DosimLoop.

Context {L : Collaborators} {HL : Contracts L}.

Lemma mu_index_ok (G : globals) (hyp : nat) :
  globals_ok G -> (hyp < 2)%nat ->
  exists mu_h, py_index (mu G) hyp = Ok mu_h /\
               length mu_h = n /\ Forall (fun v => 0 < v) mu_h.
Proof.
  intros [Hlen Hall] Hhyp. unfold py_index.
  destruct (nth_error (mu G) hyp) as [mu_h |] eqn:E.
  - exists mu_h. split; [reflexivity |].
    apply nth_error_In in E. rewrite Forall_forall in Hall. apply Hall. exact E.
  - apply nth_error_None in E. lia.
Qed.

Lemma for_range_dosim_body (G : globals) (hyp : nat) (cov : option cov_struct) (mu_h : list R) :
  py_index (mu G) hyp = Ok mu_h ->
  length mu_h = n -> Forall (fun v => 0 < v) mu_h ->
  forall (k : nat) (s0 s1 pv : list R) (w : world),
  exists recs s',
    length recs = k /\ Forall replicate_ok recs /\
    for_range k (dosim_body G hyp cov) ([s0; s1], pv) w =
    Ok (([s0 ++ map null_scale recs; s1 ++ map alt_scale recs], pv ++ map rep_pv recs),
        World L s' (trace w ++ dosim_events G mu_h cov recs)).
Proof.
  intros Hidx Hlen Hpos. induction k as [| k IH]; intros s0 s1 pv w.
  - exists [], (lib w). split; [reflexivity |]. split; [constructor |].
    simpl. rewrite !app_nil_r. destruct w. reflexivity.
  - destruct (dosim_body_run G hyp cov mu_h s0 s1 pv w Hidx Hlen Hpos)
      as (rc & sa & Hok & Hrun).
    destruct (IH (s0 ++ [null_scale rc]) (s1 ++ [alt_scale rc]) (pv ++ [rep_pv rc])
                (World L sa (trace w ++ replicate_events G mu_h cov rc)))
      as (recs & sb & Hn & Hall & Hrest).
    exists (rc :: recs), sb. split; [simpl; lia |]. split; [constructor; assumption |].
    cbn [for_range]. rewrite (bind_run _ _ _ _ _ Hrun), Hrest.
    cbn [trace map dosim_events flat_map]. unfold dosim_events.
    rewrite <- !app_assoc. reflexivity.
Qed.

(** [dosim] on well-formed globals: it returns, and its value and its
    calls are those of [replicate_count mcrep] replicates. *)
Lemma dosim_run (G : globals) (hyp : nat) (cov : option cov_struct) (mcrep : option nat)
    (w : world) :
  globals_ok G -> (hyp < 2)%nat ->
  exists mu_h recs s',
    nth_error (mu G) hyp = Some mu_h /\
    length recs = replicate_count mcrep /\ Forall replicate_ok recs /\
    dosim G hyp cov mcrep w =
    Ok (dosim_value recs, World L s' (trace w ++ dosim_events G mu_h cov recs)).
Proof.
  intros HG Hhyp.
  destruct (mu_index_ok G hyp HG Hhyp) as (mu_h & Hidx & Hlen & Hpos).
  destruct (for_range_dosim_body G hyp cov mu_h Hidx Hlen Hpos
              (replicate_count mcrep) [] [] [] w) as (recs & s' & Hn & Hall & Hrun).
  exists mu_h, recs, s'.
  split.
  { unfold py_index in Hidx. destruct (nth_error (mu G) hyp); [congruence | discriminate]. }
  split; [exact Hn |]. split; [exact Hall |].
  unfold dosim. fold (replicate_count mcrep).
  rewrite (bind_run _ _ _ _ _ Hrun). reflexivity.
Qed.

End DosimLoop.

(** ** Means *)

Lemma ltb_iff (a b : R) : Np.ltb a b = true <-> a < b.
Proof.
  unfold Np.ltb. destruct (Rlt_dec a b); split; intros H; try reflexivity; try assumption;
    [discriminate | contradiction].
Qed.

Lemma mean_nonempty (l : list R) :
  l <> [] -> Np.mean l = Finite (Np.sum l / INR (length l)).
Proof.
  destruct l; [congruence | reflexivity].
Qed.

Lemma sum_indicator (f : R -> bool) (l : list R) :
  Np.sum (map (fun b : bool => if b then 1 else 0) (map f l)) = INR (length (filter f l)).
Proof.
  induction l as [| v l IH]; [reflexivity |].
  cbn [map filter Np.sum fold_right]. fold (Np.sum (map (fun b : bool => if b then 1 else 0) (map f l))).
  rewrite IH. destruct (f v).
  - cbn [length]. rewrite S_INR. lra.
  - lra.
Qed.

Lemma sum_unit_bounds (l : list R) :
  Forall (fun v => 0 <= v <= 1) l -> 0 <= Np.sum l <= INR (length l).
Proof.
  induction 1 as [| v l Hv _ IH].
  - simpl. lra.
  - cbn [Np.sum fold_right length]. fold (Np.sum l). rewrite S_INR. lra.
Qed.

Lemma ratio_unit (a b : R) : 0 < b -> 0 <= a <= b -> 0 <= a / b <= 1.
Proof.
  intros Hb [Ha0 Hab]. split.
  - apply Rmult_le_pos; [exact Ha0 | apply Rlt_le, Rinv_0_lt_compat; exact Hb].
  - apply (Rmult_le_reg_r b); [exact Hb |].
    unfold Rdiv. rewrite Rmult_assoc, Rinv_l by lra. lra.
Qed.

(** The two entries of [summary] on a non-empty array. *)
Lemma summary_nonempty (pv : list R) :
  pv <> [] ->
  summary pv =
  [Finite (Np.sum pv / INR (length pv));
   Finite (INR (length (filter (fun v => Np.ltb v (1 / 10)) pv)) / INR (length pv))].
Proof.
  intros Hne. unfold summary, Np.mean_bool, Np.less.
  rewrite (mean_nonempty pv Hne), mean_nonempty.
  - rewrite sum_indicator, !length_map. reflexivity.
  - destruct pv; [congruence | discriminate].
Qed.

Lemma INR_length_pos {A : Type} (l : list A) : l <> [] -> 0 < INR (length l).
Proof.
  destruct l; [congruence | intros _]. cbn [length]. apply lt_0_INR. lia.
Qed.

Lemma length_pos_nonempty {A : Type} (l : list A) : (1 <= length l)%nat -> l <> [].
Proof.
  destruct l; simpl; [lia | discriminate].
Qed.

(** ** The unit globals are well formed *)

Lemma unit_globals_ok : globals_ok unit_globals.
Proof.
  assert (H : length (repeat 1 n) = n /\ Forall (fun v => 0 < v) (repeat 1 n)).
  { split; [apply repeat_length |].
    apply Forall_forall. intros v Hv. apply repeat_spec in Hv. lra. }
  split; [reflexivity |]. cbn [mu unit_globals].
  constructor; [exact H | constructor; [exact H | constructor]].
Qed.

(** ** Claims on the driver *)

(** C2: for hypothesis selectors 0 and 1, every covariance structure and
    every replicate count mcrep >= 1, dosim returns; its first value is the
    two-element summary [sum of the mcrep p-values / mcrep, number of
    p-values strictly below 0.1 / mcrep], its second value holds exactly
    two lists, the scales of the null-model fits and the scales of the
    alternative-model fits, one entry per replicate; the p-values and the
    scales are those of the mcrep replicates the trace records. *)
Theorem dosim_returns_summary_and_scales {L : Collaborators} {HL : Contracts L}
    (G : globals) (hyp : nat) (cov : option cov_struct) (mcrep : nat) (w : world) :
  globals_ok G -> (hyp < 2)%nat -> (1 <= mcrep)%nat ->
  exists (mu_h : list R) (recs : list replicate) (w' : world),
    nth_error (mu G) hyp = Some mu_h /\
    length recs = mcrep /\
    trace w' = trace w ++ dosim_events G mu_h cov recs /\
    dosim G hyp cov (Some mcrep) w =
    Ok (([Finite (Np.sum (map rep_pv recs) / INR mcrep);
          Finite (INR (length (filter (fun v => Np.ltb v (1 / 10)) (map rep_pv recs)))
                  / INR mcrep)],
         [map (fun rc => results_scale (rep_r0 rc)) recs;
          map (fun rc => results_scale (rep_r1 rc)) recs]), w') /\
    length (map rep_pv recs) = mcrep /\
    length (map (fun rc => results_scale (rep_r0 rc)) recs) = mcrep /\
    length (map (fun rc => results_scale (rep_r1 rc)) recs) = mcrep /\
    (forall v, Np.ltb v (1 / 10) = true <-> v < 1 / 10).
Proof.
  intros HG Hhyp Hm.
  destruct (dosim_run G hyp cov (Some mcrep) w HG Hhyp)
    as (mu_h & recs & s' & Hmu & Hlen & _ & Hrun).
  cbn [replicate_count] in Hlen.
  exists mu_h, recs, (World L s' (trace w ++ dosim_events G mu_h cov recs)).
  split; [exact Hmu |]. split; [exact Hlen |]. split; [reflexivity |].
  split.
  - rewrite Hrun. unfold dosim_value. rewrite summary_nonempty.
    + rewrite length_map, Hlen. reflexivity.
    + apply length_pos_nonempty. rewrite length_map. lia.
  - rewrite !length_map. repeat split; try exact Hlen; apply ltb_iff.
Qed.

Lemma dosim_returns_summary_and_scales_witness :
  exists (recs : list (@replicate stub_library)) (w' : world),
    length recs = 1%nat /\
    dosim unit_globals 0 (Some Independence) (Some 1%nat) stub_world =
    Ok (([Finite (Np.sum (map rep_pv recs) / INR 1);
          Finite (INR (length (filter (fun v => Np.ltb v (1 / 10)) (map rep_pv recs)))
                  / INR 1)],
         [map (fun rc => results_scale (rep_r0 rc)) recs;
          map (fun rc => results_scale (rep_r1 rc)) recs]), w').
Proof.
  destruct (@dosim_returns_summary_and_scales stub_library stub_contracts
              unit_globals 0%nat (Some Independence) 1%nat stub_world
              unit_globals_ok (Nat.lt_0_2) (Nat.le_refl 1))
    as (mu_h & recs & w' & _ & Hlen & _ & Hrun & _).
  exists recs, w'. split; [exact Hlen | exact Hrun].
Defined.

(** C3: in every replicate of dosim the library is called in this order
    and with these arguments: a normal draw of size n and one of size
    n // m (the correlated uniforms are built from them with the fixed r
    and m); the gamma draw of negbinom for the mean vector mu[hyp] and the
    fixed dispersion scale, which gives the responses y; the GEE Poisson
    model of y on the null design x0, grouped by grp, with the given
    covariance structure, fit with scale='X2'; the same on the alternative
    design x; and the score test of the alternative model against the null
    fit, whose p-value is the replicate's.  Both fitted scales are
    recorded in the returned lists. *)
Theorem dosim_replicate_steps {L : Collaborators} {HL : Contracts L}
    (G : globals) (hyp : nat) (cov : option cov_struct) (mcrep : nat) (w : world) :
  globals_ok G -> (hyp < 2)%nat ->
  exists (mu_h : list R) (recs : list replicate) (w' : world),
    nth_error (mu G) hyp = Some mu_h /\
    length recs = mcrep /\
    dosim G hyp cov (Some mcrep) w =
    Ok ((summary (map rep_pv recs),
         [map (fun rc => results_scale (rep_r0 rc)) recs;
          map (fun rc => results_scale (rep_r1 rc)) recs]), w') /\
    trace w' =
    trace w ++
    flat_map (fun rc =>
      [ EvNormal n (rep_z rc);
        EvNormal (n / m) (rep_u rc);
        EvGamma (map (fun v => v * (1 - nb_p scale) / nb_p scale) mu_h)
                (nb_p scale / (1 - nb_p scale)) n (rep_x rc);
        EvGEE (rep_y rc) (x0 G) (grp G) cov Poisson (rep_m0 rc);
        EvFit (rep_m0 rc) "X2" (rep_r0 rc);
        EvGEE (rep_y rc) (x G) (grp G) cov Poisson (rep_m1 rc);
        EvFit (rep_m1 rc) "X2" (rep_r1 rc);
        EvScoreTest (rep_m1 rc) (rep_r0 rc) (rep_pv rc) ]) recs /\
    Forall (fun rc =>
      length (rep_z rc) = n /\ length (rep_u rc) = (n / m)%nat /\
      length (rep_x rc) = n /\ length (rep_y rc) = n /\
      rep_y rc =
      Np.zip_with poisson_ppf
        (map norm_cdf
           (Np.zip_with Rplus (Np.scal r (rep_z rc))
              (Np.scal (sqrt (1 - r ^ 2)) (Np.kron (rep_u rc) (Np.ones m)))))
        (rep_x rc)) recs.
Proof.
  intros HG Hhyp.
  destruct (dosim_run G hyp cov (Some mcrep) w HG Hhyp)
    as (mu_h & recs & s' & Hmu & Hlen & Hall & Hrun).
  exists mu_h, recs, (World L s' (trace w ++ dosim_events G mu_h cov recs)).
  split; [exact Hmu |]. split; [exact Hlen |]. split; [exact Hrun |].
  split; [reflexivity |].
  eapply Forall_impl; [| exact Hall].
  intros rc (Hz & Hu & Hx & Hy & _). repeat split; assumption.
Qed.

Lemma dosim_replicate_steps_witness :
  exists (recs : list (@replicate stub_library)) (w' : world),
    length recs = 3%nat /\
    dosim unit_globals 1 (Some Exchangeable) (Some 3%nat) stub_world =
    Ok ((summary (map rep_pv recs),
         [map (fun rc => results_scale (rep_r0 rc)) recs;
          map (fun rc => results_scale (rep_r1 rc)) recs]), w').
Proof.
  destruct (@dosim_replicate_steps stub_library stub_contracts
              unit_globals 1%nat (Some Exchangeable) 3%nat stub_world
              unit_globals_ok (Nat.lt_1_2))
    as (mu_h & recs & w' & _ & Hlen & Hrun & _).
  exists recs, w'. split; [exact Hlen | exact Hrun].
Defined.

(** C9: with mcrep = 0 the loop never runs: dosim returns the summary of
    an empty p-value array, whose two entries are NaN, and two empty scale
    lists, and leaves the world as it was.  With mcrep >= 1 both summary
    entries are numbers in [0, 1]. *)
Theorem dosim_without_replicates {L : Collaborators} {HL : Contracts L}
    (G : globals) (hyp : nat) (cov : option cov_struct) (w : world) :
  (dosim G hyp cov (Some 0%nat) w = Ok ((summary [], [[]; []]), w) /\
   summary [] = [NaN; NaN] /\ Np.mean [] = NaN /\
   forall v, ~ In (Finite v) (summary [])) /\
  (forall mcrep, globals_ok G -> (hyp < 2)%nat -> (1 <= mcrep)%nat ->
     exists a b scales w',
       dosim G hyp cov (Some mcrep) w = Ok (([Finite a; Finite b], scales), w') /\
       0 <= a <= 1 /\ 0 <= b <= 1).
Proof.
  split.
  - split; [destruct w; reflexivity |]. split; [reflexivity |]. split; [reflexivity |].
    intros v [H | [H | []]]; discriminate.
  - intros mcrep HG Hhyp Hm.
    destruct (dosim_run G hyp cov (Some mcrep) w HG Hhyp)
      as (mu_h & recs & s' & _ & Hlen & Hall & Hrun).
    cbn [replicate_count] in Hlen.
    assert (Hne : map rep_pv recs <> []).
    { apply length_pos_nonempty. rewrite length_map. lia. }
    assert (Hpv : Forall (fun v => 0 <= v <= 1) (map rep_pv recs)).
    { apply Forall_map. eapply Forall_impl; [| exact Hall].
      intros rc (_ & _ & _ & _ & Hr). exact Hr. }
    rewrite Hrun. unfold dosim_value. rewrite (summary_nonempty _ Hne).
    eexists. eexists. eexists. eexists. split; [reflexivity |].
    pose proof (INR_length_pos _ Hne) as Hpos.
    split.
    + apply ratio_unit; [exact Hpos | apply sum_unit_bounds; exact Hpv].
    + apply ratio_unit; [exact Hpos |]. split; [apply pos_INR |].
      apply le_INR. apply filter_length_le.
Qed.

Lemma dosim_without_replicates_witness :
  dosim unit_globals 0 None (Some 0%nat) stub_world = Ok ((summary [], [[]; []]), stub_world) /\
  exists a b scales w',
    dosim unit_globals 0 None (Some 2%nat) stub_world = Ok (([Finite a; Finite b], scales), w') /\
    0 <= a <= 1 /\ 0 <= b <= 1.
Proof.
  destruct (@dosim_without_replicates stub_library stub_contracts
              unit_globals 0%nat None stub_world) as [[H0 _] H1].
  split; [exact H0 |].
  exact (H1 2%nat unit_globals_ok Nat.lt_0_2 (Nat.le_succ_diag_r 1)).
Defined.

(** ** The setup: design matrices, groups, means *)

Section SetupRuns.

Context {L : Collaborators} {HL : Contracts L}.

Lemma omap_ok {A B : Type} (f : A -> outcome B) (g : A -> B) (l : list A) :
  (forall a, In a l -> f a = Ok (g a)) -> omap f l = Ok (map g l).
Proof.
  induction l as [| a l IH]; intros H; [reflexivity |].
  cbn [omap map]. rewrite (H a (or_introl eq_refl)). cbn [obind].
  rewrite IH; [reflexivity |]. intros b Hb. apply H. right. exact Hb.
Qed.

Lemma reshape_shape (rows cols : nat) (flat : list R) :
  length flat = (rows * cols)%nat ->
  length (Np.reshape rows cols flat) = rows /\
  Forall (fun row => length row = cols) (Np.reshape rows cols flat).
Proof.
  revert flat. induction rows as [| rows IH]; intros flat Hlen; cbn [Np.reshape].
  - split; [reflexivity | constructor].
  - destruct (IH (skipn cols flat)) as [Hn Hall].
    { rewrite length_skipn, Hlen. simpl. lia. }
    split; [cbn [length]; rewrite Hn; reflexivity |].
    constructor; [| exact Hall].
    rewrite length_firstn, Hlen. simpl. lia.
Qed.

Lemma kron_ones (a : list R) (k : nat) :
  Np.kron a (Np.ones k) = flat_map (fun v => repeat v k) a.
Proof.
  unfold Np.kron, Np.ones. induction a as [| v a IH]; [reflexivity |].
  cbn [flat_map]. rewrite IH. f_equal. clear IH a.
  induction k as [| k IHk]; [reflexivity |].
  cbn [repeat map]. rewrite IHk, Rmult_1_r. reflexivity.
Qed.

Lemma arange_count : ((n + m - 1) / m = n / m)%nat.
Proof. reflexivity. Qed.

Lemma group_labels_run :
  group_labels n m = Ok (flat_map (fun c => repeat (INR c) m) (seq 0 (n / m))).
Proof.
  unfold group_labels. change (Nat.eqb m 0) with false. cbv iota.
  rewrite kron_ones. unfold Np.arange_div. rewrite arange_count, flat_map_concat_map.
  rewrite map_map, <- flat_map_concat_map. reflexivity.
Qed.

Lemma set_col0_ok (v : R) (X : list (list R)) :
  Forall (fun row => row <> []) X ->
  Np.set_col0 v X = Ok (map (fun row => v :: tl row) X).
Proof.
  intros H. unfold Np.set_col0. apply omap_ok. intros row Hin.
  rewrite Forall_forall in H. specialize (H row Hin).
  destruct row; [congruence | reflexivity].
Qed.

Lemma dot_ok (X : list (list R)) (c : list R) :
  Forall (fun row => length row = length c) X ->
  Np.dot X c = Ok (map (fun row => Np.sum (Np.zip_with Rmult row c)) X).
Proof.
  intros H. unfold Np.dot. apply omap_ok. intros row Hin.
  rewrite Forall_forall in H. rewrite (H row Hin), Nat.eqb_refl. reflexivity.
Qed.

Lemma exp_all_pos (a : list R) : Forall (fun v => 0 < v) (Np.exp a).
Proof.
  unfold Np.exp. apply Forall_map. apply Forall_forall. intros v _. apply exp_pos.
Qed.

Lemma setup_run (w : world) :
  exists (G : globals) (flat : list R) (s' : lib_state),
    length flat = (n * p)%nat /\
    setup w = Ok (G, World L s' (trace w ++ [EvNormal (n * p) flat])) /\
    globals_ok G /\ design_ok G /\ groups_ok G.
Proof.
  destruct (random_normal (n * p) (lib w)) as [flat s'] eqn:Eflat.
  assert (Hflat : length flat = (n * p)%nat).
  { rewrite <- (normal_size (n * p) (lib w)), Eflat. reflexivity. }
  destruct (reshape_shape n p flat Hflat) as [Hrows Hcols].
  set (X := map (fun row => 1 :: tl row) (Np.reshape n p flat)).
  assert (HX : Forall (fun row => length row = p /\ nth_error row 0 = Some 1) X).
  { unfold X. apply Forall_map. eapply Forall_impl; [| exact Hcols].
    intros row Hrow. destruct row; [discriminate Hrow |]. split; [exact Hrow | reflexivity]. }
  assert (HXn : length X = n) by (unfold X; rewrite length_map; exact Hrows).
  assert (HX0 : Forall (fun row => length row = 3%nat) (Np.cols_upto 3 X)).
  { unfold Np.cols_upto. apply Forall_map. eapply Forall_impl; [| exact HX].
    intros row [Hrow _]. rewrite length_firstn, Hrow. reflexivity. }
  exists (Globals (flat_map (fun c => repeat (INR c) m) (seq 0 (n / m))) X (Np.cols_upto 3 X)
            [map (fun row => Np.sum (Np.zip_with Rmult row [4; 4 / 10; - (2 / 10)]))
               (Np.cols_upto 3 X);
             map (fun row => Np.sum (Np.zip_with Rmult row [4; 4 / 10; - (2 / 10); 0; - (4 / 100)])) X]
            [Np.exp (map (fun row => Np.sum (Np.zip_with Rmult row [4; 4 / 10; - (2 / 10)]))
                       (Np.cols_upto 3 X));
             Np.exp (map (fun row => Np.sum
                        (Np.zip_with Rmult row [4; 4 / 10; - (2 / 10); 0; - (4 / 100)])) X)]),
    flat, s'.
  split; [exact Hflat |]. split.
  { unfold setup, setup_with. rewrite group_labels_run, lift_run.
    unfold np_random_normal. rewrite call_run, Eflat. cbn [fst snd].
    rewrite set_col0_ok.
    2:{ eapply Forall_impl; [| exact Hcols]. intros row Hrow E. subst row. discriminate Hrow. }
    fold X. rewrite lift_run.
    change (py_index coeff 0) with (Ok [4; 4 / 10; - (2 / 10)] : outcome (list R)).
    rewrite lift_run.
    change (py_index coeff 1) with (Ok [4; 4 / 10; - (2 / 10); 0; - (4 / 100)] : outcome (list R)).
    rewrite lift_run.
    rewrite (dot_ok (Np.cols_upto 3 X) [4; 4 / 10; - (2 / 10)] HX0), lift_run.
    rewrite (dot_ok X [4; 4 / 10; - (2 / 10); 0; - (4 / 100)]);
      [| eapply Forall_impl; [| exact HX]; intros row [Hrow _]; exact Hrow].
    rewrite lift_run. reflexivity. }
  split.
  { split; [reflexivity |]. cbn [mu].
    constructor; [| constructor; [| constructor]]; (split; [| apply exp_all_pos]);
      unfold Np.exp, Np.cols_upto; rewrite !length_map; exact HXn. }
  split.
  { split; [exact HXn |]. split; [exact HX | reflexivity]. }
  reflexivity.
Qed.

End SetupRuns.

(** ** The reporting cycles *)

Section ReportRuns.

Context {L : Collaborators} {HL : Contracts L}.

Lemma report_run (G : globals) (cov : option cov_struct) (mcrep : option nat) (w : world) :
  globals_ok G ->
  exists (mu0 mu1 : list R) (recs0 recs1 : list replicate) (s' : lib_state),
    nth_error (mu G) 0 = Some mu0 /\ nth_error (mu G) 1 = Some mu1 /\
    length recs0 = replicate_count mcrep /\ length recs1 = replicate_count mcrep /\
    report G cov mcrep w =
    Ok ([snd (dosim_value recs0); snd (dosim_value recs1)],
        World L s' (trace w ++ report_events G mu0 mu1 cov recs0 recs1)).
Proof.
  intros HG.
  destruct (dosim_run G 0 cov mcrep w HG Nat.lt_0_2)
    as (mu0 & recs0 & sa & Hmu0 & Hn0 & _ & Hrun0).
  destruct (dosim_run G 1 cov mcrep
              (World L sa (trace w ++ dosim_events G mu0 cov recs0)) HG Nat.lt_1_2)
    as (mu1 & recs1 & sb & Hmu1 & Hn1 & _ & Hrun1).
  exists mu0, mu1, recs0, recs1, sb.
  repeat (split; [assumption |]).
  unfold report. cbn [for_hyps].
  unfold bind at 1. unfold bind at 1. rewrite Hrun0.
  unfold bind at 1. rewrite Hrun1.
  unfold ret, py_print, bind, report_events, report_table.
  cbn [fst snd app lib trace]. rewrite <- !app_assoc. reflexivity.
Qed.

Lemma main_run (w : world) :
  exists (G : globals) (flat mu0 mu1 : list R) (a0 a1 b0 b1 : list replicate)
         (s1 s' : lib_state),
    setup w = Ok (G, World L s1 (trace w ++ [EvNormal (n * p) flat])) /\
    globals_ok G /\ design_ok G /\ groups_ok G /\
    nth_error (mu G) 0 = Some mu0 /\ nth_error (mu G) 1 = Some mu1 /\
    length a0 = default_mcrep /\ length a1 = default_mcrep /\
    length b0 = 100%nat /\ length b1 = 100%nat /\
    main w = Ok (tt, World L s' (trace w ++ main_events G flat mu0 mu1 a0 a1 b0 b1)).
Proof.
  destruct (setup_run w) as (G & flat & s1 & _ & Hsetup & HG & HD & HGr).
  destruct (report_run G (Some Independence) None
              (World L s1 (trace w ++ [EvNormal (n * p) flat])) HG)
    as (mu0 & mu1 & a0 & a1 & sa & Hmu0 & Hmu1 & Ha0 & Ha1 & Hrep1).
  destruct (report_run G (Some Exchangeable) (Some 100%nat)
              (World L sa
                 ((((trace w ++ [EvNormal (n * p) flat]) ++
                   report_events G mu0 mu1 (Some Independence) a0 a1) ++
                  [EvBoxplot (boxplot_groups a0 a1)]) ++ [EvYlabel "Estimated scale"])) HG)
    as (mu0' & mu1' & b0 & b1 & sb & Hmu0' & Hmu1' & Hb0 & Hb1 & Hrep2).
  assert (E0 : mu0' = mu0) by congruence.
  assert (E1 : mu1' = mu1) by congruence.
  subst mu0' mu1'.
  exists G, flat, mu0, mu1, a0, a1, b0, b1, s1, sb.
  repeat (split; [assumption |]).
  unfold main.
  rewrite (bind_run _ _ _ _ _ Hsetup).
  rewrite (bind_run _ _ _ _ _ Hrep1).
  unfold index2, dosim_value. cbn [py_index nth_error obind snd].
  rewrite !lift_run.
  unfold plt_boxplot, plt_ylabel. unfold bind at 1. unfold bind at 1.
  cbn [lib trace]. fold (boxplot_groups a0 a1).
  unfold bind at 1. rewrite Hrep2. unfold ret, main_events.
  cbn [trace]. rewrite <- !app_assoc. reflexivity.
Qed.

End ReportRuns.

(** ** Blocks of repeated labels *)

Lemma blocks_length (f : nat -> R) (k : nat) (l : list nat) :
  length (flat_map (fun c => repeat (f c) k) l) = (length l * k)%nat.
Proof.
  induction l as [| c l IH]; [reflexivity |].
  cbn [flat_map length]. rewrite length_app, repeat_length, IH. reflexivity.
Qed.

Lemma blocks_nth (f : nat -> R) (k : nat) :
  k <> 0%nat ->
  forall (len a j : nat),
    (j < len * k)%nat ->
    nth_error (flat_map (fun c => repeat (f c) k) (seq a len)) j = Some (f (a + j / k)%nat).
Proof.
  intros Hk. induction len as [| len IH]; intros a j Hj; [simpl in Hj; lia |].
  cbn [seq flat_map]. destruct (Nat.lt_ge_cases j k) as [Hlt | Hge].
  - rewrite nth_error_app1 by (rewrite repeat_length; exact Hlt).
    rewrite nth_error_repeat by exact Hlt.
    rewrite (Nat.div_small j k Hlt), Nat.add_0_r. reflexivity.
  - rewrite nth_error_app2 by (rewrite repeat_length; exact Hge).
    rewrite repeat_length, IH by (simpl in Hj; lia).
    replace j with (j - k + 1 * k)%nat at 2 by lia.
    rewrite Nat.div_add by exact Hk. f_equal. f_equal. lia.
Qed.

Lemma blocks_members (f : nat -> R) (k len : nat) (v : R) :
  k <> 0%nat ->
  In v (flat_map (fun c => repeat (f c) k) (seq 0 len)) <->
  exists c, (c < len)%nat /\ v = f c.
Proof.
  intros Hk. rewrite in_flat_map. split.
  - intros (c & Hc & Hv). exists c. split.
    + apply in_seq in Hc. lia.
    + apply repeat_spec in Hv. exact Hv.
  - intros (c & Hc & Hv). exists c. split.
    + apply in_seq. lia.
    + subst v. destruct k as [| k]; [congruence | left; reflexivity].
Qed.

(** ** Fixed inputs of the fits *)

Section FixedInputs.

Context {L : Collaborators}.

Lemma dosim_events_fixed (G : globals) (mu_h : list R) (cov : option cov_struct)
    (recs : list replicate) :
  Forall (gee_inputs_fixed G) (dosim_events G mu_h cov recs).
Proof.
  unfold dosim_events. apply Forall_flat_map. apply Forall_forall. intros rc _.
  unfold replicate_events.
  repeat (apply Forall_cons; [cbn [gee_inputs_fixed]; auto |]). apply Forall_nil.
Qed.

Lemma report_events_fixed (G : globals) (mu0 mu1 : list R) (cov : option cov_struct)
    (recs0 recs1 : list replicate) :
  Forall (gee_inputs_fixed G) (report_events G mu0 mu1 cov recs0 recs1).
Proof.
  unfold report_events. rewrite !Forall_app.
  split; [apply dosim_events_fixed |]. split; [apply dosim_events_fixed |].
  repeat constructor.
Qed.

Lemma main_events_fixed (G : globals) (flat mu0 mu1 : list R)
    (a0 a1 b0 b1 : list replicate) :
  Forall (gee_inputs_fixed G) (main_events G flat mu0 mu1 a0 a1 b0 b1).
Proof.
  unfold main_events. rewrite !Forall_app.
  split; [repeat constructor |]. split; [apply report_events_fixed |].
  split; [repeat constructor | apply report_events_fixed].
Qed.

End FixedInputs.

(** ** Nesting of the two designs *)






Section Design.

Context {L : Collaborators} {HL : Contracts L}.


End Design.





(** ** Claims on the setup and the reporting *)




(** C8: the group vector has length n; observation i carries the label
    i // m, a whole number; two observations share a label exactly when
    they lie in the same block of m consecutive observations; the labels
    are 0, ..., n / m - 1, that is n / m = 100 clusters of m = 10 for
    n = 1000; and every model of the run is built on this vector. *)
Theorem group_vector_clusters {L : Collaborators} {HL : Contracts L} (w : world) :
  exists (G : globals) (w1 w' : world) (evs : list event),
    setup w = Ok (G, w1) /\
    n = 1000%nat /\ m = 10%nat /\ (n / m = 100)%nat /\
    length (grp G) = n /\
    (forall i, (i < n)%nat -> nth_error (grp G) i = Some (INR (i / m))) /\
    (forall i j, (i < n)%nat -> (j < n)%nat ->
       (nth_error (grp G) i = nth_error (grp G) j <-> (i / m = j / m)%nat)) /\
    (forall v, In v (grp G) <-> exists c, (c < n / m)%nat /\ v = INR c) /\
    main w = Ok (tt, w') /\
    trace w' = trace w ++ evs /\
    Forall (fun ev => match ev with
                      | EvGEE _ _ groups _ _ _ => groups = grp G
                      | _ => True
                      end) evs.
Proof.
  destruct (main_run w)
    as (G & flat & mu0 & mu1 & a0 & a1 & b0 & b1 & s1 & s' & Hsetup & _ & _ & HGr & _ & _ &
        _ & _ & _ & _ & Hmain).
  destruct script_sizes as [Hm Hn].
  assert (Hnth : forall i, (i < n)%nat -> nth_error (grp G) i = Some (INR (i / m))).
  { intros i Hi. rewrite HGr. rewrite (blocks_nth INR m Hm (n / m) 0 i) by (rewrite <- Hn; exact Hi).
    reflexivity. }
  exists G, (World L s1 (trace w ++ [EvNormal (n * p) flat])),
    (World L s' (trace w ++ main_events G flat mu0 mu1 a0 a1 b0 b1)),
    (main_events G flat mu0 mu1 a0 a1 b0 b1).
  split; [exact Hsetup |]. split; [reflexivity |]. split; [reflexivity |].
  split; [reflexivity |].
  split; [rewrite HGr, blocks_length, length_seq; symmetry; exact Hn |].
  split; [exact Hnth |].
  split.
  { intros i j Hi Hj. rewrite (Hnth i Hi), (Hnth j Hj). split.
    - intros E. injection E as E. apply INR_eq. exact E.
    - intros E. rewrite E. reflexivity. }
  split; [intros v; rewrite HGr; apply blocks_members; exact Hm |].
  split; [exact Hmain |]. split; [reflexivity |].
  eapply Forall_impl; [| apply main_events_fixed].
  intros ev Hev. destruct ev; try exact I. apply Hev.
Qed.

Lemma group_vector_clusters_witness :
  exists (G : globals) (w1 w' : @world stub_library),
    setup stub_world = Ok (G, w1) /\
    nth_error (grp G) 25 = Some (INR 2) /\
    main stub_world = Ok (tt, w').
Proof.
  destruct (@group_vector_clusters stub_library stub_contracts stub_world)
    as (G & w1 & w' & evs & Hsetup & _ & _ & _ & _ & Hnth & _ & _ & Hmain & _).
  exists G, w1, w'. split; [exact Hsetup |]. split; [| exact Hmain].
  apply (Hnth 25%nat). unfold n. apply Nat.ltb_lt. reflexivity.
Defined.

(** C10: the script runs, and after the draw of the design it makes two
    reporting cycles.  The first runs dosim under H0 and then under H1
    with the Independence structure and the default replicate count, 500
    replicates each, and prints the table of the two summaries; the box
    plot of the four scale lists and its axis label follow; the second
    cycle does the same with the Exchangeable structure and 100
    replicates each, and 100 < 500. *)
Theorem reporting_runs_two_cycles {L : Collaborators} {HL : Contracts L} (w : world) :
  exists (G : globals) (flat mu0 mu1 : list R) (a0 a1 b0 b1 : list replicate) (w' : world),
    main w = Ok (tt, w') /\
    nth_error (mu G) 0 = Some mu0 /\ nth_error (mu G) 1 = Some mu1 /\
    trace w' =
    trace w ++
    [EvNormal (n * p) flat] ++
    (dosim_events G mu0 (Some Independence) a0 ++
     dosim_events G mu1 (Some Independence) a1 ++
     [EvPrint (DataFrame [summary (map rep_pv a0); summary (map rep_pv a1)]
                         ["H0"%string; "H1"%string]
                         ["Mean"%string; "Prop(p<0.1)"%string])]) ++
    [EvBoxplot [map null_scale a0; map alt_scale a0; map null_scale a1; map alt_scale a1];
     EvYlabel "Estimated scale"] ++
    (dosim_events G mu0 (Some Exchangeable) b0 ++
     dosim_events G mu1 (Some Exchangeable) b1 ++
     [EvPrint (DataFrame [summary (map rep_pv b0); summary (map rep_pv b1)]
                         ["H0"%string; "H1"%string]
                         ["Mean"%string; "Prop(p<0.1)"%string])]) /\
    length a0 = default_mcrep /\ length a1 = default_mcrep /\
    length b0 = 100%nat /\ length b1 = 100%nat /\
    default_mcrep = 500%nat /\ (100 < default_mcrep)%nat.
Proof.
  destruct (main_run w)
    as (G & flat & mu0 & mu1 & a0 & a1 & b0 & b1 & s1 & s' & _ & _ & _ & _ & Hmu0 & Hmu1 &
        Ha0 & Ha1 & Hb0 & Hb1 & Hmain).
  exists G, flat, mu0, mu1, a0, a1, b0, b1,
    (World L s' (trace w ++ main_events G flat mu0 mu1 a0 a1 b0 b1)).
  split; [exact Hmain |]. split; [exact Hmu0 |]. split; [exact Hmu1 |].
  split; [reflexivity |].
  repeat (split; [assumption |]).
  split; [reflexivity |]. apply Nat.ltb_lt. reflexivity.
Qed.

Lemma reporting_runs_two_cycles_witness :
  exists (a0 a1 b0 b1 : list (@replicate stub_library)) (w' : world),
    main stub_world = Ok (tt, w') /\
    length a0 = 500%nat /\ length a1 = 500%nat /\
    length b0 = 100%nat /\ length b1 = 100%nat.
Proof.
  destruct (@reporting_runs_two_cycles stub_library stub_contracts stub_world)
    as (G & flat & mu0 & mu1 & a0 & a1 & b0 & b1 & w' & Hmain & _ & _ & _ &
        Ha0 & Ha1 & Hb0 & Hb1 & _).
  exists a0, a1, b0, b1, w'. repeat (split; [assumption |]). exact Hb1.
Defined.

(** ** Further properties of the generator and of [dosim] *)

Lemma mix_mismatch (rr : R) (z u : list R) :
  length z <> length u -> length z <> 1%nat -> length u <> 1%nat ->
  mix rr z u = Raise ValueError.
Proof.
  intros Hne Hz Hu. unfold mix, Np.add, Np.broadcast2.
  rewrite !scal_length. rewrite (proj2 (Nat.eqb_neq _ _) Hne).
  destruct z as [| z0 [| z1 z]]; destruct u as [| u0 [| u1 u]]; simpl in *;
    try congruence; reflexivity.
Qed.

Lemma floor_multiple (k d : nat) : d <> 0%nat -> (k = k / d * d <-> k mod d = 0)%nat.
Proof.
  intros Hd. pose proof (Nat.div_mod_eq k d) as E. split; intros H; nia.
Qed.

Lemma list_of_length_zero {A : Type} (l : list A) : length l = 0%nat -> l = [].
Proof.
  destruct l; [reflexivity | discriminate].
Qed.

(** X6: the generator of lines 119-123 needs a cluster size m that is not
    0 and that divides n.  With m = 0 it raises ZeroDivisionError; with m
    not dividing n (and n other than 1) the two vectors of line 122 do not
    broadcast and it raises ValueError; with n = 1 and m > 1 they broadcast
    to an empty vector, which it returns; with m dividing n it returns n
    values. *)
Theorem correlated_uniform_divisibility {L : Collaborators} {HL : Contracts L}
    (k d : nat) (rr : R) (w : world) :
  (d = 0%nat -> correlated_uniform k d rr w = Raise ZeroDivisionError) /\
  (d <> 0%nat -> (k mod d <> 0)%nat -> k <> 1%nat ->
   correlated_uniform k d rr w = Raise ValueError) /\
  (k = 1%nat -> (1 < d)%nat -> exists w', correlated_uniform k d rr w = Ok ([], w')) /\
  (d <> 0%nat -> (k mod d = 0)%nat ->
   exists out w', correlated_uniform k d rr w = Ok (out, w') /\ length out = k).
Proof.
  split; [| split; [| split]].
  - intros Hd. subst d. unfold correlated_uniform, np_random_normal.
    rewrite call_run. reflexivity.
  - intros Hd Hmod Hk. unfold correlated_uniform, np_random_normal.
    rewrite call_run. unfold py_floordiv. rewrite (proj2 (Nat.eqb_neq d 0) Hd).
    rewrite lift_run, call_run. cbn [lib trace].
    rewrite mix_mismatch; [reflexivity | | |].
    + rewrite kron_ones_length, !normal_size.
      intros E. apply (floor_multiple k d Hd) in E. contradiction.
    + rewrite normal_size. exact Hk.
    + rewrite kron_ones_length, normal_size. intros E.
      apply Nat.eq_mul_1 in E. destruct E as [_ E]. subst d.
      apply Hmod. apply Nat.mod_1_r.
  - intros Hk Hd. subst k. unfold correlated_uniform, np_random_normal.
    rewrite call_run. unfold py_floordiv.
    rewrite (proj2 (Nat.eqb_neq d 0)) by lia.
    rewrite lift_run, call_run. cbn [lib trace].
    rewrite (Nat.div_small 1 d Hd).
    pose proof (normal_size 1 (lib w)) as Hz.
    destruct (random_normal 1 (lib w)) as [z sa]. cbn [fst snd] in *.
    pose proof (normal_size 0 sa) as Hu.
    destruct (random_normal 0 sa) as [u sb]. cbn [fst snd] in *.
    apply list_of_length_zero in Hu. subst u.
    destruct z as [| z0 [| z1 z]]; try discriminate Hz.
    eexists. reflexivity.
  - intros Hd Hmod. apply (floor_multiple k d Hd) in Hmod.
    rewrite <- bind_ret_end, (correlated_uniform_run k d rr ret w Hd Hmod).
    cbv zeta. unfold ret. eexists. eexists. split; [reflexivity |].
    rewrite length_map, zip_with_length.
    + rewrite scal_length. apply normal_size.
    + rewrite !scal_length, kron_ones_length, !normal_size. exact Hmod.
Qed.

Lemma correlated_uniform_divisibility_witness :
  @correlated_uniform stub_library 5 0 (1 / 2) stub_world = Raise ZeroDivisionError /\
  @correlated_uniform stub_library 5 2 (1 / 2) stub_world = Raise ValueError /\
  (exists w', @correlated_uniform stub_library 1 2 (1 / 2) stub_world = Ok ([], w')) /\
  exists out w', @correlated_uniform stub_library 6 2 (1 / 2) stub_world = Ok (out, w') /\
                 length out = 6%nat.
Proof.
  split; [| split; [| split]].
  - apply (@correlated_uniform_divisibility stub_library stub_contracts 5 0 (1 / 2) stub_world).
    reflexivity.
  - apply (@correlated_uniform_divisibility stub_library stub_contracts 5 2 (1 / 2) stub_world);
      discriminate.
  - apply (@correlated_uniform_divisibility stub_library stub_contracts 1 2 (1 / 2) stub_world);
      [reflexivity | apply Nat.lt_1_2].
  - apply (@correlated_uniform_divisibility stub_library stub_contracts 6 2 (1 / 2) stub_world);
      [discriminate | reflexivity].
Defined.

Lemma repeated_blocks_nth (d : nat) (u : list R) :
  d <> 0%nat ->
  forall j, (j < length u * d)%nat ->
            nth_error (flat_map (fun v => repeat v d) u) j = nth_error u (j / d).
Proof.
  intros Hd. induction u as [| v u IH]; intros j Hj; [simpl in Hj; lia |].
  cbn [flat_map]. destruct (Nat.lt_ge_cases j d) as [Hlt | Hge].
  - rewrite nth_error_app1 by (rewrite repeat_length; exact Hlt).
    rewrite nth_error_repeat by exact Hlt.
    rewrite (Nat.div_small j d Hlt). reflexivity.
  - rewrite nth_error_app2 by (rewrite repeat_length; exact Hge).
    rewrite repeat_length, IH by (simpl in Hj; lia).
    replace j with (j - d + 1 * d)%nat at 2 by lia.
    rewrite Nat.div_add by exact Hd. rewrite Nat.add_1_r. reflexivity.
Qed.

(** X7: what the generator does at the two ends of the range of r, for
    every n, every m that divides it and every draw.  With r = 0 its
    output is the normal CDF of the cluster-level draw repeated over each
    cluster: observations i and j of the same block of m share their
    value.  With r = 1 its output is the normal CDF of the per-observation
    draw alone. *)
Theorem correlated_uniform_at_ends {L : Collaborators} {HL : Contracts L}
    (k d : nat) (w : world) :
  d <> 0%nat -> (k mod d = 0)%nat ->
  (exists out w',
     correlated_uniform k d 0 w = Ok (out, w') /\ length out = k /\
     forall i j, (i < k)%nat -> (j < k)%nat -> (i / d = j / d)%nat ->
                 nth_error out i = nth_error out j) /\
  (exists w',
     correlated_uniform k d 1 w = Ok (map norm_cdf (fst (random_normal k (lib w))), w')).
Proof.
  intros Hd Hmod. apply (floor_multiple k d Hd) in Hmod. split.
  - rewrite (correlated_uniform_at_zero k d w Hd Hmod). cbv zeta.
    eexists. eexists. split; [reflexivity |].
    assert (Hlen : (length (fst (random_normal (k / d) (snd (random_normal k (lib w))))) * d = k)%nat).
    { rewrite normal_size. symmetry. exact Hmod. }
    split.
    + rewrite length_map, kron_ones_length. exact Hlen.
    + intros i j Hi Hj Hij. rewrite !nth_error_map, kron_ones.
      rewrite !(repeated_blocks_nth d _ Hd) by (rewrite Hlen; assumption).
      rewrite Hij. reflexivity.
  - rewrite (correlated_uniform_at_one k d w Hd Hmod). cbv zeta.
    eexists. reflexivity.
Qed.

Lemma correlated_uniform_at_ends_witness :
  exists out w',
    @correlated_uniform stub_library 6 3 0 stub_world = Ok (out, w') /\
    nth_error out 3 = nth_error out 5.
Proof.
  destruct (@correlated_uniform_at_ends stub_library stub_contracts 6 3 stub_world)
    as [(out & w' & Hrun & _ & Hsame) _]; [discriminate | reflexivity |].
  exists out, w'. split; [exact Hrun |].
  apply Hsame; [apply Nat.ltb_lt; reflexivity | apply Nat.ltb_lt; reflexivity | reflexivity].
Defined.

(** X1: a hypothesis selector past the end of mu makes dosim raise
    IndexError in its first replicate, whatever the covariance structure,
    as soon as there is a replicate to run. *)
Theorem dosim_hypothesis_out_of_range {L : Collaborators} {HL : Contracts L}
    (G : globals) (hyp : nat) (cov : option cov_struct) (mcrep : nat) (w : world) :
  (length (mu G) <= hyp)%nat -> (1 <= mcrep)%nat ->
  dosim G hyp cov (Some mcrep) w = Raise IndexError.
Proof.
  intros Hhyp Hm. destruct mcrep as [| k]; [lia |].
  assert (Hbody : forall st, dosim_body G hyp cov st w = Raise IndexError).
  { intros [scales pv]. unfold dosim_body. destruct script_sizes as [Hd Hn].
    rewrite (correlated_uniform_run n m r _ w Hd Hn). cbv zeta.
    unfold py_index. rewrite (proj2 (nth_error_None (mu G) hyp) Hhyp). reflexivity. }
  unfold dosim. cbn [for_range].
  apply bind_raise. apply bind_raise. apply Hbody.
Qed.

Lemma dosim_hypothesis_out_of_range_witness :
  @dosim stub_library unit_globals 2 (Some Independence) (Some 3%nat) stub_world =
  Raise IndexError.
Proof.
  apply (@dosim_hypothesis_out_of_range stub_library stub_contracts).
  - apply Nat.le_refl.
  - apply Nat.leb_le. reflexivity.
Defined.

(** ** Further properties of the setup *)

Lemma group_labels_blocks (k d : nat) :
  d <> 0%nat ->
  group_labels k d =
  Ok (flat_map (fun c => repeat (INR c) d) (seq 0 ((k + d - 1) / d))).
Proof.
  intros Hd. unfold group_labels. rewrite (proj2 (Nat.eqb_neq d 0) Hd).
  rewrite kron_ones. unfold Np.arange_div. rewrite flat_map_concat_map.
  rewrite map_map, <- flat_map_concat_map. reflexivity.
Qed.

Lemma ceiling_multiple (k d : nat) :
  d <> 0%nat ->
  (k <= (k + d - 1) / d * d < k + d)%nat /\
  ((k + d - 1) / d * d = k <-> k mod d = 0)%nat.
Proof.
  intros Hd.
  pose proof (Nat.div_mod_eq (k + d - 1) d) as E1.
  pose proof (Nat.mod_upper_bound (k + d - 1) d Hd) as B1.
  pose proof (Nat.div_mod_eq k d) as E2.
  pose proof (Nat.mod_upper_bound k d Hd) as B2.
  split; [nia |]. split; intros H.
  - assert (Hq : ((k + d - 1) / d = k / d)%nat) by nia. nia.
  - assert (Hq : ((k + d - 1) / d = k / d)%nat) by nia. nia.
Qed.

(** X8 (line 68): the group vector built for n observations and
    cluster size m.  With m = 0 the division raises ZeroDivisionError.
    Otherwise entry i is the label i // m and the length is n rounded up
    to a multiple of m: it is n exactly when m divides n and longer than n
    when it does not. *)
Theorem group_labels_length (k d : nat) :
  (d = 0%nat -> group_labels k d = Raise ZeroDivisionError) /\
  (d <> 0%nat ->
   exists g, group_labels k d = Ok g /\
             (k <= length g < k + d)%nat /\
             (length g mod d = 0)%nat /\
             (length g = k <-> k mod d = 0)%nat /\
             forall i, (i < length g)%nat -> nth_error g i = Some (INR (i / d))).
Proof.
  split.
  - intros Hd. subst d. reflexivity.
  - intros Hd. rewrite (group_labels_blocks k d Hd). eexists. split; [reflexivity |].
    rewrite blocks_length, length_seq.
    destruct (ceiling_multiple k d Hd) as [Hb Hiff].
    split; [exact Hb |]. split; [apply Nat.Div0.mod_mul |]. split; [exact Hiff |].
    intros i Hi. rewrite (blocks_nth INR d Hd _ 0 i Hi). reflexivity.
Qed.

Lemma omap_head_raise {A B : Type} (f : A -> outcome B) (a : A) (l : list A) (e : exn) :
  f a = Raise e -> omap f (a :: l) = Raise e.
Proof.
  intros H. cbn [omap]. rewrite H. reflexivity.
Qed.

Lemma dot_mismatch (row : list R) (X : list (list R)) (c : list R) :
  length row <> length c -> Np.dot (row :: X) c = Raise ValueError.
Proof.
  intros H. unfold Np.dot. apply omap_head_raise.
  rewrite (proj2 (Nat.eqb_neq _ _) H). reflexivity.
Qed.

Section SetupWith.

Context {L : Collaborators} {HL : Contracts L}.

(** The setup with five columns, for any number of observations and any
    cluster size other than 0. *)
Lemma setup_with_five_run (k d : nat) (w : world) :
  d <> 0%nat ->
  exists (g : list R) (X : list (list R)) (flat : list R) (s' : lib_state),
    group_labels k d = Ok g /\
    length X = k /\
    Forall (fun row => length row = 5%nat /\ nth_error row 0 = Some 1) X /\
    setup_with k 5 d w =
    Ok (Globals g X (map (firstn 3) X)
          [map (fun row => Np.sum (Np.zip_with Rmult row [4; 4 / 10; - (2 / 10)]))
             (map (firstn 3) X);
           map (fun row => Np.sum (Np.zip_with Rmult row [4; 4 / 10; - (2 / 10); 0; - (4 / 100)])) X]
          [Np.exp (map (fun row => Np.sum (Np.zip_with Rmult row [4; 4 / 10; - (2 / 10)]))
                     (map (firstn 3) X));
           Np.exp (map (fun row => Np.sum
                      (Np.zip_with Rmult row [4; 4 / 10; - (2 / 10); 0; - (4 / 100)])) X)],
        World L s' (trace w ++ [EvNormal (k * 5) flat])).
Proof.
  intros Hd.
  destruct (random_normal (k * 5) (lib w)) as [flat s'] eqn:Eflat.
  assert (Hflat : length flat = (k * 5)%nat).
  { rewrite <- (normal_size (k * 5) (lib w)), Eflat. reflexivity. }
  destruct (reshape_shape k 5 flat Hflat) as [Hrows Hcols].
  set (X := map (fun row => 1 :: tl row) (Np.reshape k 5 flat)).
  assert (HX : Forall (fun row => length row = 5%nat /\ nth_error row 0 = Some 1) X).
  { unfold X. apply Forall_map. eapply Forall_impl; [| exact Hcols].
    intros row Hrow. destruct row; [discriminate Hrow |]. split; [exact Hrow | reflexivity]. }
  assert (HX0 : Forall (fun row => length row = 3%nat) (map (firstn 3) X)).
  { apply Forall_map. eapply Forall_impl; [| exact HX].
    intros row [Hrow _]. rewrite length_firstn, Hrow. reflexivity. }
  exists (flat_map (fun c => repeat (INR c) d) (seq 0 ((k + d - 1) / d))), X, flat, s'.
  split; [apply group_labels_blocks; exact Hd |].
  split; [unfold X; rewrite length_map; exact Hrows |].
  split; [exact HX |].
  unfold setup_with. rewrite (group_labels_blocks k d Hd), lift_run.
  unfold np_random_normal. rewrite call_run, Eflat. cbn [fst snd].
  rewrite set_col0_ok.
  2:{ eapply Forall_impl; [| exact Hcols]. intros row Hrow E. subst row. discriminate Hrow. }
  fold X. rewrite lift_run.
  change (py_index coeff 0) with (Ok [4; 4 / 10; - (2 / 10)] : outcome (list R)).
  rewrite lift_run.
  change (py_index coeff 1) with (Ok [4; 4 / 10; - (2 / 10); 0; - (4 / 100)] : outcome (list R)).
  rewrite lift_run. unfold Np.cols_upto.
  rewrite (dot_ok (map (firstn 3) X) [4; 4 / 10; - (2 / 10)] HX0), lift_run.
  rewrite (dot_ok X [4; 4 / 10; - (2 / 10); 0; - (4 / 100)]);
    [| eapply Forall_impl; [| exact HX]; intros row [Hrow _]; exact Hrow].
  rewrite lift_run. reflexivity.
Qed.

End SetupWith.

(** X9 (lines 55-99): how the setup depends on its sizes, for n > 0
    observations.  A cluster size of 0 raises ZeroDivisionError before
    anything is drawn; p = 0 columns raise IndexError at the assignment of
    column 0; any other p than 5 raises ValueError at one of the two
    products with the coefficient vectors, which have 3 and 5 entries;
    with p = 5 the setup returns, for every n and every cluster size
    other than 0. *)
Theorem setup_sizes {L : Collaborators} {HL : Contracts L} (k pp d : nat) (w : world) :
  (d = 0%nat -> setup_with k pp d w = Raise ZeroDivisionError) /\
  (d <> 0%nat -> (0 < k)%nat -> pp = 0%nat -> setup_with k pp d w = Raise IndexError) /\
  (d <> 0%nat -> (0 < k)%nat -> pp <> 0%nat -> pp <> 5%nat ->
   setup_with k pp d w = Raise ValueError) /\
  (d <> 0%nat -> pp = 5%nat -> exists G w', setup_with k pp d w = Ok (G, w')).
Proof.
  split; [| split; [| split]].
  - intros Hd. subst d. reflexivity.
  - intros Hd Hk Hp. subst pp. unfold setup_with.
    rewrite (group_labels_blocks k d Hd), lift_run.
    unfold np_random_normal. rewrite call_run.
    destruct k as [| k']; [lia |]. reflexivity.
  - intros Hd Hk Hp0 Hp5. unfold setup_with.
    rewrite (group_labels_blocks k d Hd), lift_run.
    unfold np_random_normal. rewrite call_run.
    destruct (random_normal (k * pp) (lib w)) as [flat s'] eqn:Eflat. cbn [fst snd].
    assert (Hflat : length flat = (k * pp)%nat).
    { rewrite <- (normal_size (k * pp) (lib w)), Eflat. reflexivity. }
    destruct (reshape_shape k pp flat Hflat) as [Hrows Hcols].
    rewrite set_col0_ok.
    2:{ eapply Forall_impl; [| exact Hcols]. intros row Hrow E. subst row.
        simpl in Hrow. congruence. }
    rewrite lift_run.
    change (py_index coeff 0) with (Ok [4; 4 / 10; - (2 / 10)] : outcome (list R)).
    rewrite lift_run.
    change (py_index coeff 1) with (Ok [4; 4 / 10; - (2 / 10); 0; - (4 / 100)] : outcome (list R)).
    rewrite lift_run.
    destruct (Np.reshape k pp flat) as [| row rows] eqn:Erows; [simpl in Hrows; lia |].
    apply Forall_cons_iff in Hcols. destruct Hcols as [Hrow Hrest].
    cbn [map Np.cols_upto].
    assert (Hlen1 : length (1 :: tl row) = pp).
    { destruct row; simpl in *; [congruence | exact Hrow]. }
    destruct (Nat.lt_ge_cases pp 3) as [Hlt | Hge].
    + rewrite dot_mismatch; [reflexivity |].
      rewrite length_firstn, Hlen1. cbn [length]. lia.
    + rewrite (dot_ok (firstn 3 (1 :: tl row) :: map (firstn 3) (map (fun r0 => 1 :: tl r0) rows))
                      [4; 4 / 10; - (2 / 10)]).
      * rewrite lift_run. rewrite dot_mismatch; [reflexivity |].
        rewrite Hlen1. cbn [length]. exact Hp5.
      * constructor.
        { rewrite length_firstn, Hlen1. cbn [length]. lia. }
        { apply Forall_map, Forall_map. eapply Forall_impl; [| exact Hrest].
          intros r0 Hr0. rewrite length_firstn.
          assert (Hr1 : length (1 :: tl r0) = pp).
          { destruct r0; cbn [tl length] in *; [congruence | exact Hr0]. }
          rewrite Hr1. cbn [length]. lia. }
  - intros Hd Hp. subst pp.
    destruct (setup_with_five_run k d w Hd) as (g & X & flat & s' & _ & _ & _ & Hrun).
    eexists. eexists. exact Hrun.
Qed.

Lemma setup_sizes_witness :
  @setup_with stub_library 4 5 0 stub_world = Raise ZeroDivisionError /\
  @setup_with stub_library 4 0 2 stub_world = Raise IndexError /\
  @setup_with stub_library 4 4 2 stub_world = Raise ValueError /\
  exists G w', @setup_with stub_library 4 5 2 stub_world = Ok (G, w').
Proof.
  split; [| split; [| split]].
  - apply (@setup_sizes stub_library stub_contracts 4 5 0 stub_world). reflexivity.
  - apply (@setup_sizes stub_library stub_contracts 4 0 2 stub_world);
      [discriminate | apply Nat.ltb_lt; reflexivity | reflexivity].
  - apply (@setup_sizes stub_library stub_contracts 4 4 2 stub_world);
      [discriminate | apply Nat.ltb_lt; reflexivity | discriminate | discriminate].
  - apply (@setup_sizes stub_library stub_contracts 4 5 2 stub_world);
      [discriminate | reflexivity].
Defined.

(** X2 (lines 93-99): the two mean vectors the script computes, for every
    draw of the design.  Both have n entries; for observation i with
    design row [1, x1, x2, x3, x4] the null mean is
    exp(4 + 0.4 x1 - 0.2 x2) and the alternative mean is the null mean
    times exp(-0.04 x4): the fourth column has coefficient 0 and plays no
    part. *)
Theorem mean_vectors_formula {L : Collaborators} {HL : Contracts L} (w : world) :
  exists (G : globals) (w1 : world) (mu0 mu1 : list R),
    setup w = Ok (G, w1) /\
    mu G = [mu0; mu1] /\
    length mu0 = n /\ length mu1 = n /\
    forall i, (i < n)%nat ->
      exists x1 x2 x3 x4,
        nth_error (x G) i = Some [1; x1; x2; x3; x4] /\
        nth_error mu0 i = Some (exp (4 + 4 / 10 * x1 - 2 / 10 * x2)) /\
        nth_error mu1 i =
        Some (exp (4 + 4 / 10 * x1 - 2 / 10 * x2) * exp (- (4 / 100) * x4)).
Proof.
  assert (Hd : m <> 0%nat) by discriminate.
  destruct (setup_with_five_run n m w Hd) as (g & X & flat & s' & _ & HXn & HX & Hrun).
  eexists. eexists. eexists. eexists.
  split; [exact Hrun |]. cbn [mu x]. split; [reflexivity |].
  split; [unfold Np.exp; rewrite !length_map; exact HXn |].
  split; [unfold Np.exp; rewrite !length_map; exact HXn |].
  intros i Hi.
  destruct (nth_error X i) as [row |] eqn:Erow.
  2:{ apply nth_error_None in Erow. lia. }
  rewrite Forall_forall in HX. destruct (HX row (nth_error_In _ _ Erow)) as [Hlen Hfirst].
  destruct row as [| a0 [| x1 [| x2 [| x3 [| x4 [| x5 row]]]]]]; try discriminate Hlen.
  cbn [nth_error] in Hfirst. injection Hfirst as Ea. subst a0.
  exists x1, x2, x3, x4. split; [reflexivity |].
  unfold Np.exp. rewrite !nth_error_map, Erow. cbn [option_map firstn].
  split.
  - f_equal. f_equal. unfold Np.sum, Np.zip_with. simpl. lra.
  - f_equal. rewrite <- exp_plus. f_equal. unfold Np.sum, Np.zip_with. simpl. lra.
Qed.

Lemma mean_vectors_formula_witness :
  exists (G : globals) (w1 : @world stub_library) (mu0 mu1 : list R),
    setup stub_world = Ok (G, w1) /\
    mu G = [mu0; mu1] /\
    exists x1 x2 x3 x4,
      nth_error (x G) 7 = Some [1; x1; x2; x3; x4] /\
      nth_error mu1 7 = Some (exp (4 + 4 / 10 * x1 - 2 / 10 * x2) * exp (- (4 / 100) * x4)).
Proof.
  destruct (@mean_vectors_formula stub_library stub_contracts stub_world)
    as (G & w1 & mu0 & mu1 & Hrun & Hmu & _ & _ & Hrows).
  exists G, w1, mu0, mu1. split; [exact Hrun |]. split; [exact Hmu |].
  destruct (Hrows 7%nat) as (x1 & x2 & x3 & x4 & Hx & _ & H1).
  { apply Nat.ltb_lt. reflexivity. }
  exists x1, x2, x3, x4. split; [exact Hx | exact H1].
Defined.

(** ** Counting the library calls of [dosim] *)

Lemma count_kind_app {L : Collaborators} (k : call_kind) (a b : list event) :
  count_kind k (a ++ b) = (count_kind k a + count_kind k b)%nat.
Proof.
  unfold count_kind. rewrite filter_app, length_app. reflexivity.
Qed.

Lemma count_kind_replicates {L : Collaborators} (G : globals) (mu_h : list R)
    (cov : option cov_struct) (k : call_kind) (recs : list replicate) :
  count_kind k (dosim_events G mu_h cov recs) =
  (match k with
   | KNormal => 2
   | KGamma => 1
   | KGEE => 2
   | KFit => 2
   | KScoreTest => 1
   | KOutput => 0
   end * length recs)%nat.
Proof.
  unfold dosim_events. induction recs as [| rc recs IH].
  - destruct k; reflexivity.
  - cbn [flat_map length]. rewrite count_kind_app, IH.
    destruct k; unfold count_kind, replicate_events; cbn [filter kind_of same_kind length]; lia.
Qed.



(** ** Running [dosim] in batches *)

Section Batches.

Context {L : Collaborators} {HL : Contracts L}.

(** A pass of the loop does not read the lists it appends to: on any
    [scales] and [pv] it does what it does on empty ones, appended. *)
Lemma dosim_body_shift (G : globals) (hyp : nat) (cov : option cov_struct)
    (s0 s1 pv : list R) (w : world) :
  dosim_body G hyp cov ([s0; s1], pv) w =
  match dosim_body G hyp cov ([[]; []], []) w with
  | Ok (([d0; d1], dp), w') => Ok (([s0 ++ d0; s1 ++ d1], pv ++ dp), w')
  | Ok (st, w') => Ok (st, w')
  | Raise e => Raise e
  end.
Proof.
  unfold dosim_body, bind.
  destruct (correlated_uniform n m r w) as [[u w1] | e]; [| reflexivity].
  destruct (lift (py_index (mu G) hyp) w1) as [[mu_h w2] | e]; [| reflexivity].
  destruct (negbinom u mu_h scale w2) as [[y w3] | e]; [| reflexivity].
  unfold sm_GEE, sm_fit, sm_compare_score_test, call, lift, ret.
  destruct (gee_new y (x0 G) (grp G) cov Poisson (lib w3)) as [m0 sa]. cbn [lib trace].
  destruct (gee_fit m0 "X2" sa) as [r0 sb].
  cbn [lib trace append_at nth_error firstn skipn app].
  destruct (gee_new y (x G) (grp G) cov Poisson sb) as [m1 sc]. cbn [lib trace].
  destruct (gee_fit m1 "X2" sc) as [r1 sd].
  cbn [lib trace append_at nth_error firstn skipn app].
  destruct (compare_score_test m1 r0 sd) as [pval se]. reflexivity.
Qed.

Lemma for_range_add {S : Type} (a b : nat) (body : S -> M S) (st : S) (w : world) :
  for_range (a + b) body st w = bind (for_range a body st) (for_range b body) w.
Proof.
  revert st w. induction a as [| a IH]; intros st w; [reflexivity |].
  cbn [Nat.add for_range]. unfold bind.
  destruct (body st w) as [[st' w'] | e]; [| reflexivity].
  rewrite IH. reflexivity.
Qed.

Lemma for_range_frame (G : globals) (hyp : nat) (cov : option cov_struct) (mu_h : list R) :
  py_index (mu G) hyp = Ok mu_h ->
  length mu_h = n -> Forall (fun v => 0 < v) mu_h ->
  forall (k : nat) (w : world),
  exists recs s',
    length recs = k /\
    forall s0 s1 pv,
      for_range k (dosim_body G hyp cov) ([s0; s1], pv) w =
      Ok (([s0 ++ map null_scale recs; s1 ++ map alt_scale recs], pv ++ map rep_pv recs),
          World L s' (trace w ++ dosim_events G mu_h cov recs)).
Proof.
  intros Hidx Hlen Hpos. induction k as [| k IH]; intros w.
  - exists [], (lib w). split; [reflexivity |]. intros s0 s1 pv.
    simpl. rewrite !app_nil_r. destruct w. reflexivity.
  - destruct (dosim_body_run G hyp cov mu_h [] [] [] w Hidx Hlen Hpos)
      as (rc & sa & _ & Hrun).
    destruct (IH (World L sa (trace w ++ replicate_events G mu_h cov rc)))
      as (recs & sb & Hn & Hrest).
    exists (rc :: recs), sb. split; [simpl; lia |]. intros s0 s1 pv.
    cbn [for_range]. unfold bind at 1.
    rewrite dosim_body_shift, Hrun. cbn [app]. rewrite Hrest.
    cbn [trace map dosim_events flat_map]. unfold dosim_events.
    rewrite <- !app_assoc. reflexivity.
Qed.

End Batches.

(** X10: dosim can be run in batches.  With a + b replicates it returns
    what a run of a replicates followed, from the library state that run
    leaves, by a run of b replicates returns: the scale lists are the two
    runs' lists one after the other, the summary is that of the two runs'
    p-values together, and the final state and trace are the same. *)
Theorem dosim_batches {L : Collaborators} {HL : Contracts L}
    (G : globals) (hyp : nat) (cov : option cov_struct) (a b : nat) (w : world) :
  globals_ok G -> (hyp < 2)%nat ->
  exists (recs_a recs_b : list replicate) (wa wb : world),
    length recs_a = a /\ length recs_b = b /\
    dosim G hyp cov (Some a) w =
    Ok ((summary (map rep_pv recs_a), [map null_scale recs_a; map alt_scale recs_a]), wa) /\
    dosim G hyp cov (Some b) wa =
    Ok ((summary (map rep_pv recs_b), [map null_scale recs_b; map alt_scale recs_b]), wb) /\
    dosim G hyp cov (Some (a + b)%nat) w =
    Ok ((summary (map rep_pv recs_a ++ map rep_pv recs_b),
         [map null_scale recs_a ++ map null_scale recs_b;
          map alt_scale recs_a ++ map alt_scale recs_b]), wb).
Proof.
  intros HG Hhyp.
  destruct (mu_index_ok G hyp HG Hhyp) as (mu_h & Hidx & Hlen & Hpos).
  destruct (for_range_frame G hyp cov mu_h Hidx Hlen Hpos a w) as (recs_a & sa & Ha & Hrun_a).
  destruct (for_range_frame G hyp cov mu_h Hidx Hlen Hpos b
              (World L sa (trace w ++ dosim_events G mu_h cov recs_a)))
    as (recs_b & sb & Hb & Hrun_b).
  exists recs_a, recs_b, (World L sa (trace w ++ dosim_events G mu_h cov recs_a)),
    (World L sb ((trace w ++ dosim_events G mu_h cov recs_a) ++ dosim_events G mu_h cov recs_b)).
  split; [exact Ha |]. split; [exact Hb |].
  split; [| split].
  - unfold dosim. rewrite (bind_run _ _ _ _ _ (Hrun_a [] [] [])). reflexivity.
  - unfold dosim. rewrite (bind_run _ _ _ _ _ (Hrun_b [] [] [])). reflexivity.
  - unfold dosim. unfold bind at 1. rewrite for_range_add.
    rewrite (bind_run _ _ _ _ _ (Hrun_a [] [] [])). cbn [app].
    rewrite Hrun_b. reflexivity.
Qed.

Lemma dosim_batches_witness :
  exists (recs_a recs_b : list (@replicate stub_library)) (wa wb : world),
    length recs_a = 2%nat /\ length recs_b = 3%nat /\
    dosim unit_globals 1 None (Some 2%nat) stub_world =
    Ok ((summary (map rep_pv recs_a), [map null_scale recs_a; map alt_scale recs_a]), wa) /\
    dosim unit_globals 1 None (Some 3%nat) wa =
    Ok ((summary (map rep_pv recs_b), [map null_scale recs_b; map alt_scale recs_b]), wb) /\
    dosim unit_globals 1 None (Some 5%nat) stub_world =
    Ok ((summary (map rep_pv recs_a ++ map rep_pv recs_b),
         [map null_scale recs_a ++ map null_scale recs_b;
          map alt_scale recs_a ++ map alt_scale recs_b]), wb).
Proof.
  exact (@dosim_batches stub_library stub_contracts unit_globals 1%nat None 2%nat 3%nat
           stub_world unit_globals_ok Nat.lt_1_2).
Defined.

(** ** What the script prints and plots *)

Section Outputs.

Context {L : Collaborators} {HL : Contracts L}.

Lemma report_run_ok (G : globals) (cov : option cov_struct) (mcrep : option nat) (w : world) :
  globals_ok G ->
  exists (mu0 mu1 : list R) (recs0 recs1 : list replicate) (s' : lib_state),
    length recs0 = replicate_count mcrep /\ length recs1 = replicate_count mcrep /\
    Forall replicate_ok recs0 /\ Forall replicate_ok recs1 /\
    report G cov mcrep w =
    Ok ([snd (dosim_value recs0); snd (dosim_value recs1)],
        World L s' (trace w ++ report_events G mu0 mu1 cov recs0 recs1)).
Proof.
  intros HG.
  destruct (dosim_run G 0 cov mcrep w HG Nat.lt_0_2)
    as (mu0 & recs0 & sa & _ & Hn0 & Hok0 & Hrun0).
  destruct (dosim_run G 1 cov mcrep
              (World L sa (trace w ++ dosim_events G mu0 cov recs0)) HG Nat.lt_1_2)
    as (mu1 & recs1 & sb & _ & Hn1 & Hok1 & Hrun1).
  exists mu0, mu1, recs0, recs1, sb.
  repeat (split; [assumption |]).
  unfold report. cbn [for_hyps].
  unfold bind at 1. unfold bind at 1. rewrite Hrun0.
  unfold bind at 1. rewrite Hrun1.
  unfold ret, py_print, bind, report_events, report_table.
  cbn [fst snd app lib trace]. rewrite <- !app_assoc. reflexivity.
Qed.

(** A table of two summaries over non-empty p-value lists in [0, 1]. *)
Lemma report_table_entries (recs0 recs1 : list replicate) :
  recs0 <> [] -> recs1 <> [] ->
  Forall replicate_ok recs0 -> Forall replicate_ok recs1 ->
  exists a b c d,
    df_data (report_table recs0 recs1) = [[Finite a; Finite b]; [Finite c; Finite d]] /\
    0 <= a <= 1 /\ 0 <= b <= 1 /\ 0 <= c <= 1 /\ 0 <= d <= 1.
Proof.
  assert (Hrow : forall recs : list replicate, recs <> [] -> Forall replicate_ok recs ->
            exists a b, summary (map rep_pv recs) = [Finite a; Finite b] /\
                        0 <= a <= 1 /\ 0 <= b <= 1).
  { intros recs Hne Hok.
    assert (Hpne : map rep_pv recs <> []) by (destruct recs; [congruence | discriminate]).
    assert (Hpv : Forall (fun v => 0 <= v <= 1) (map rep_pv recs)).
    { apply Forall_map. eapply Forall_impl; [| exact Hok].
      intros rc (_ & _ & _ & _ & Hr). exact Hr. }
    rewrite (summary_nonempty _ Hpne). eexists. eexists. split; [reflexivity |].
    pose proof (INR_length_pos _ Hpne) as Hpos. split.
    - apply ratio_unit; [exact Hpos | apply sum_unit_bounds; exact Hpv].
    - apply ratio_unit; [exact Hpos |]. split; [apply pos_INR |].
      apply le_INR. apply filter_length_le. }
  intros Hne0 Hne1 Hok0 Hok1.
  destruct (Hrow recs0 Hne0 Hok0) as (a & b & E0 & Ha & Hb).
  destruct (Hrow recs1 Hne1 Hok1) as (c & d & E1 & Hc & Hd).
  exists a, b, c, d. unfold report_table, dosim_value. cbn [df_data fst].
  rewrite E0, E1. repeat split; try reflexivity; lra.
Qed.

Lemma dosim_events_no_output (G : globals) (mu_h : list R) (cov : option cov_struct)
    (recs : list replicate) (ev : event) :
  In ev (dosim_events G mu_h cov recs) -> kind_of ev <> KOutput.
Proof.
  unfold dosim_events. rewrite in_flat_map. intros (rc & _ & Hin).
  unfold replicate_events in Hin. cbn [In] in Hin.
  repeat (destruct Hin as [E | Hin]; [subst ev; discriminate |]). contradiction.
Qed.

Lemma report_events_prints (G : globals) (mu0 mu1 : list R) (cov : option cov_struct)
    (recs0 recs1 : list replicate) (ev : event) :
  In ev (report_events G mu0 mu1 cov recs0 recs1) -> kind_of ev = KOutput ->
  ev = EvPrint (report_table recs0 recs1).
Proof.
  unfold report_events. intros Hin Hk.
  apply in_app_or in Hin. destruct Hin as [Hin | Hin].
  { apply dosim_events_no_output in Hin. contradiction. }
  apply in_app_or in Hin. destruct Hin as [Hin | Hin].
  { apply dosim_events_no_output in Hin. contradiction. }
  destruct Hin as [E | []]. symmetry. exact E.
Qed.

End Outputs.

Lemma length_nonempty {A : Type} (l : list A) (k : nat) :
  length l = S k -> l <> [].
Proof.
  destruct l; [discriminate | discriminate].
Qed.

(** X11 (lines 163-196): what the script shows.  It makes four output
    calls.  Every table it prints has rows H0 and H1 and columns Mean and
    Prop(p<0.1), and its four entries are numbers in [0, 1], never NaN;
    every box plot it draws has four groups of 500 scale estimates; the
    axis label is "Estimated scale". *)
Theorem script_outputs {L : Collaborators} {HL : Contracts L} (w : world) :
  exists (w' : world) (evs : list event),
    main w = Ok (tt, w') /\
    trace w' = trace w ++ evs /\
    count_kind KOutput evs = 4%nat /\
    (forall tbl, In (EvPrint tbl) evs ->
       df_index tbl = ["H0"%string; "H1"%string] /\
       df_columns tbl = ["Mean"%string; "Prop(p<0.1)"%string] /\
       exists a b c d,
         df_data tbl = [[Finite a; Finite b]; [Finite c; Finite d]] /\
         0 <= a <= 1 /\ 0 <= b <= 1 /\ 0 <= c <= 1 /\ 0 <= d <= 1) /\
    (forall groups, In (EvBoxplot groups) evs ->
       length groups = 4%nat /\ Forall (fun g => length g = 500%nat) groups) /\
    (forall label, In (EvYlabel label) evs -> label = "Estimated scale"%string).
Proof.
  destruct (setup_run w) as (G & flat & s1 & _ & Hsetup & HG & _ & _).
  destruct (report_run_ok G (Some Independence) None
              (World L s1 (trace w ++ [EvNormal (n * p) flat])) HG)
    as (mu0 & mu1 & a0 & a1 & sa & Ha0 & Ha1 & Hoka0 & Hoka1 & Hrep1).
  destruct (report_run_ok G (Some Exchangeable) (Some 100%nat)
              (World L sa
                 ((((trace w ++ [EvNormal (n * p) flat]) ++
                   report_events G mu0 mu1 (Some Independence) a0 a1) ++
                  [EvBoxplot (boxplot_groups a0 a1)]) ++ [EvYlabel "Estimated scale"])) HG)
    as (nu0 & nu1 & b0 & b1 & sb & Hb0 & Hb1 & Hokb0 & Hokb1 & Hrep2).
  cbn [replicate_count] in Ha0, Ha1, Hb0, Hb1.
  set (evs := [EvNormal (n * p) flat] ++
              report_events G mu0 mu1 (Some Independence) a0 a1 ++
              [EvBoxplot (boxplot_groups a0 a1); EvYlabel "Estimated scale"] ++
              report_events G nu0 nu1 (Some Exchangeable) b0 b1).
  exists (World L sb (trace w ++ evs)), evs.
  split.
  { unfold main.
    rewrite (bind_run _ _ _ _ _ Hsetup).
    rewrite (bind_run _ _ _ _ _ Hrep1).
    unfold index2, dosim_value. cbn [py_index nth_error obind snd].
    rewrite !lift_run.
    unfold plt_boxplot, plt_ylabel. unfold bind at 1. unfold bind at 1.
    cbn [lib trace]. fold (boxplot_groups a0 a1).
    unfold bind at 1. rewrite Hrep2. unfold ret, evs.
    cbn [trace]. rewrite <- !app_assoc. reflexivity. }
  split; [reflexivity |].
  assert (Hmembers : forall ev, In ev evs -> kind_of ev = KOutput ->
            ev = EvPrint (report_table a0 a1) \/ ev = EvBoxplot (boxplot_groups a0 a1) \/
            ev = EvYlabel "Estimated scale" \/ ev = EvPrint (report_table b0 b1)).
  { intros ev Hin Hk. unfold evs in Hin.
    apply in_app_or in Hin. destruct Hin as [[E | []] | Hin]; [subst ev; discriminate |].
    apply in_app_or in Hin. destruct Hin as [Hin | Hin].
    { left. apply (report_events_prints _ _ _ _ _ _ _ Hin Hk). }
    apply in_app_or in Hin. destruct Hin as [[E | [E | []]] | Hin].
    - right. left. symmetry. exact E.
    - right. right. left. symmetry. exact E.
    - right. right. right. apply (report_events_prints _ _ _ _ _ _ _ Hin Hk). }
  split.
  { unfold evs, report_events. rewrite !count_kind_app, !count_kind_replicates. reflexivity. }
  split; [| split].
  - intros tbl Hin.
    assert (Htbl : tbl = report_table a0 a1 \/ tbl = report_table b0 b1).
    { destruct (Hmembers _ Hin eq_refl) as [E | [E | [E | E]]];
        try discriminate E; injection E as E; [left | right]; exact E. }
    split; [destruct Htbl; subst tbl; reflexivity |].
    split; [destruct Htbl; subst tbl; reflexivity |].
    destruct Htbl; subst tbl; apply report_table_entries;
      try assumption; eapply length_nonempty; eassumption.
  - intros groups Hin.
    destruct (Hmembers _ Hin eq_refl) as [E | [E | [E | E]]]; try discriminate E.
    injection E as E. subst groups. split; [reflexivity |].
    unfold boxplot_groups.
    repeat (apply Forall_cons; [rewrite length_map; assumption |]). apply Forall_nil.
  - intros label Hin.
    destruct (Hmembers _ Hin eq_refl) as [E | [E | [E | E]]]; try discriminate E.
    injection E as E. exact E.
Qed.

Lemma script_outputs_witness :
  exists (w' : @world stub_library) (evs : list event),
    main stub_world = Ok (tt, w') /\
    trace w' = trace stub_world ++ evs /\
    count_kind KOutput evs = 4%nat.
Proof.
  destruct (@script_outputs stub_library stub_contracts stub_world)
    as (w' & evs & Hmain & Htr & Hcount & _).
  exists w', evs. split; [exact Hmain |]. split; [exact Htr | exact Hcount].
Defined.

(** ** [negbinom] in binary64: lines 46-48 *)

Lemma whole_numbers_In (lo k : Z) (len : nat) :
  (lo <= k < lo + Z.of_nat len)%Z -> In k (F64.whole_numbers lo len).
Proof.
  intros Hk. unfold F64.whole_numbers. apply in_map_iff.
  exists (Z.to_nat (k - lo)). split; [lia |]. apply in_seq. lia.
Qed.

(** The check of [F64.params_check], run on every whole-number
    dispersion from 2 to 100 and every whole-number mean from 1 to 100. *)
Lemma f64_grid (k m : Z) :
  (2 <= k <= 100)%Z -> (1 <= m <= 100)%Z -> F64.params_check k m = true.
Proof.
  intros Hk Hm.
  assert (Hall : forallb (fun k' => forallb (F64.params_check k') (F64.whole_numbers 1 100))
                   (F64.whole_numbers 2 99) = true) by (vm_compute; reflexivity).
  rewrite forallb_forall in Hall.
  specialize (Hall k (whole_numbers_In 2 k 99 ltac:(lia))).
  rewrite forallb_forall in Hall.
  apply Hall. apply whole_numbers_In. lia.
Qed.

Lemma f64_grid_params (k m : Z) :
  (2 <= k <= 100)%Z -> (1 <= m <= 100)%Z ->
  exists p a s,
    F64.negbinom_params [F64.of_Z m] (F64.of_Z k) = Ok (p, [a], s) /\
    (0 <? p)%float = true /\ (p <? 1)%float = true /\
    (0 <? 1 - p)%float = true /\ (1 - p <? 1)%float = true /\
    (0 <? a)%float = true /\ (a <? PrimFloat.infinity)%float = true /\
    (0 <? s)%float = true /\ (s <? PrimFloat.infinity)%float = true /\
    F64.negative a = false /\ F64.negative s = false /\
    F64.within_ulps 2 (a * s)%float (F64.of_Z m) = true.
Proof.
  intros Hk Hm. pose proof (f64_grid k m Hk Hm) as H. unfold F64.params_check in H.
  destruct (F64.negbinom_params [F64.of_Z m] (F64.of_Z k)) as [[[p r] s] | e]; [| discriminate].
  destruct r as [| a [| a' r]]; try discriminate.
  exists p, a, s. split; [reflexivity |].
  repeat (apply andb_prop in H; destruct H as [H ?]).
  repeat match goal with
         | Hn : negb _ = true |- _ => apply negb_true_iff in Hn
         end.
  repeat split; assumption.
Qed.

(** [p] and the gamma scale depend on [scale] alone, each shape on its own
    mean. *)
Lemma f64_params_elementwise (mu : list F64.float) (scale : F64.float) :
  F64.negbinom_params mu scale =
  match F64.negbinom_params [] scale with
  | Ok (p, _, s) => Ok (p, map (fun v => (v * (1 - p) / p)%float) mu, s)
  | Raise e => Raise e
  end.
Proof.
  unfold F64.negbinom_params.
  destruct (F64.py_div (scale - 1)%float scale) as [p | e]; [| reflexivity].
  cbn [obind]. destruct (F64.py_div p (1 - p)%float) as [s | e]; reflexivity.
Qed.

(** C4 (the identity in binary64, at the script's dispersion and a mean
    of 1): the code's shape is 0.11111111111111108, its gamma scale is
    9.0000000000000018 and their product is 0.99999999999999989, below
    the mean 1. *)
Lemma gamma_product_inexact_binary64 :
  exists p a s,
    F64.negbinom_params [1%float] 10%float = Ok (p, [a], s) /\
    (a * s)%float = 0x1.fffffffffffffp-1%float /\
    (a * s =? 1)%float = false /\
    (a * s <? 1)%float = true.
Proof.
  eexists. eexists. eexists. split; [vm_compute; reflexivity |].
  split; [| split]; vm_compute; reflexivity.
Qed.

(** C4, as amended: in real arithmetic the parameters of lines 46-48,
    p = (scale - 1) / scale, shape mu_i (1 - p) / p and scale parameter
    p / (1 - p), satisfy shape * scale parameter = mu_i for every
    scale > 1 and every mean.  The binary64 values of the code satisfy it
    up to rounding only: for every whole-number dispersion from 2 to 100
    (the script's is 10) and every whole-number mean from 1 to 100 the
    product lies within two units in the last place of the mean, and at
    dispersion 10 and mean 1 it is not the mean.  For a dispersion so
    large that (scale - 1) / scale rounds to 1, such as 1e17, line 48
    raises ZeroDivisionError and there are no parameters. *)
Theorem gamma_mean_identity_real_and_binary64 :
  (forall (scale : R) (mu : list R),
      1 < scale ->
      nb_p scale = (scale - 1) / scale /\
      nb_shape mu scale = map (fun mu_i => mu_i * (1 - nb_p scale) / nb_p scale) mu /\
      nb_scale scale = nb_p scale / (1 - nb_p scale) /\
      map (fun a => a * nb_scale scale) (nb_shape mu scale) = mu) /\
  (forall k m : Z,
      (2 <= k <= 100)%Z -> (1 <= m <= 100)%Z ->
      exists p a s,
        F64.negbinom_params [F64.of_Z m] (F64.of_Z k) = Ok (p, [a], s) /\
        F64.within_ulps 2 (a * s)%float (F64.of_Z m) = true) /\
  (exists p a s,
      F64.negbinom_params [1%float] 10%float = Ok (p, [a], s) /\
      (a * s =? 1)%float = false) /\
  F64.negbinom_params [1%float] 1e17%float = Raise ZeroDivisionError.
Proof.
  split; [| split; [| split]].
  - intros scale mu Hs. repeat split. apply nb_shape_times_scale. exact Hs.
  - intros k m Hk Hm.
    destruct (f64_grid_params k m Hk Hm)
      as (p & a & s & Hrun & _ & _ & _ & _ & _ & _ & _ & _ & _ & _ & Hulp).
    exists p, a, s. split; assumption.
  - eexists. eexists. eexists. split; vm_compute; reflexivity.
  - vm_compute. reflexivity.
Qed.

Lemma gamma_mean_identity_real_and_binary64_witness :
  map (fun a => a * nb_scale 10) (nb_shape [1; 2] 10) = [1; 2] /\
  exists p a s,
    F64.negbinom_params [55%float] 10%float = Ok (p, [a], s) /\
    F64.within_ulps 2 (a * s)%float 55%float = true.
Proof.
  destruct gamma_mean_identity_real_and_binary64 as (Hreal & Hgrid & _).
  split.
  - destruct (Hreal 10 [1; 2]) as (_ & _ & _ & H); [lra | exact H].
  - apply (Hgrid 10%Z 55%Z); lia.
Defined.

(** C5 (a dispersion inside the precondition at which a divisor is 0):
    1e17 > 1, but in binary64 p = (1e17 - 1) / 1e17 is 1 and 1 - p is 0,
    and line 48 raises ZeroDivisionError. *)
Lemma zero_divisor_inside_precondition :
  (1 <? 1e17)%float = true /\
  ((1e17 - 1) / 1e17)%float = 1%float /\
  (1 - (1e17 - 1) / 1e17 =? 0)%float = true /\
  F64.negbinom_params [1%float] 1e17%float = Raise ZeroDivisionError.
Proof.
  repeat split; vm_compute; reflexivity.
Qed.

Lemma f64_scale_one (m : Z) :
  (1 <= m <= 100)%Z ->
  exists a,
    F64.negbinom_params [F64.of_Z m] 1%float = Ok (0%float, [a], 0%float) /\
    PrimFloat.classify a = FloatClass.PInf.
Proof.
  intros Hm.
  assert (Hall : forallb (fun m' =>
                   match PrimFloat.classify (F64.of_Z m' * (1 - 0) / 0)%float with
                   | FloatClass.PInf => true
                   | _ => false
                   end) (F64.whole_numbers 1 100) = true) by (vm_compute; reflexivity).
  rewrite forallb_forall in Hall.
  specialize (Hall m (whole_numbers_In 1 m 100 ltac:(lia))).
  exists (F64.of_Z m * (1 - 0) / 0)%float. split.
  - rewrite f64_params_elementwise.
    replace (F64.negbinom_params [] 1%float) with (Ok (0%float, @nil F64.float, 0%float))
      by (vm_compute; reflexivity).
    reflexivity.
  - destruct (PrimFloat.classify (F64.of_Z m * (1 - 0) / 0)%float); try discriminate Hall.
    reflexivity.
Qed.

Lemma f64_scale_half (m : Z) :
  (1 <= m <= 100)%Z ->
  exists a,
    F64.negbinom_params [F64.of_Z m] 0.5%float = Ok ((-1)%float, [a], (-0.5)%float) /\
    F64.negative a = true.
Proof.
  intros Hm.
  assert (Hall : forallb (fun m' => F64.negative (F64.of_Z m' * (1 - -1) / -1)%float)
                   (F64.whole_numbers 1 100) = true) by (vm_compute; reflexivity).
  rewrite forallb_forall in Hall.
  specialize (Hall m (whole_numbers_In 1 m 100 ltac:(lia))).
  exists (F64.of_Z m * (1 - -1) / -1)%float. split; [| exact Hall].
  rewrite f64_params_elementwise.
  replace (F64.negbinom_params [] 0.5%float)
    with (Ok ((-1)%float, @nil F64.float, (-0.5)%float)) by (vm_compute; reflexivity).
  reflexivity.
Qed.

Lemma f64_scale_zero (mu : list F64.float) :
  F64.negbinom_params mu 0%float = Raise ZeroDivisionError.
Proof.
  rewrite f64_params_elementwise.
  replace (F64.negbinom_params [] 0%float)
    with (@Raise (F64.float * list F64.float * F64.float) ZeroDivisionError)
    by (vm_compute; reflexivity).
  reflexivity.
Qed.

Lemma f64_broadcast2_single {f : F64.float -> F64.float -> F64.float}
    (u0 : F64.float) (x : list F64.float) :
  exists y, F64.broadcast2 f [u0] x = Ok y.
Proof.
  unfold F64.broadcast2. destruct (Nat.eqb (length [u0]) (length x)); eexists; reflexivity.
Qed.

(** C5, as amended.  In real arithmetic, for every scale > 1 the divisors
    scale, p and 1 - p are nonzero, p and 1 - p lie strictly between 0 and
    1 and the gamma shapes (for positive means) and the gamma scale
    parameter are strictly positive; in binary64 the same holds for every
    whole-number dispersion from 2 to 100 and whole-number mean from 1 to
    100, but not for every scale > 1.  negbinom validates nothing.  With
    scale = 1 it has p = 0, line 47 divides by it without an exception
    and gives infinite shapes, the gamma scale parameter is 0, and both
    are handed to the gamma sampler.  With scale = 0 line 46 raises
    ZeroDivisionError.  With any other scale < 1, in real arithmetic,
    every gamma shape and the gamma scale parameter are negative; with
    scale = 0.5 in binary64 they are, and the gamma sampler raises
    ValueError. *)
Theorem negbinom_divisors_and_validation {S : F64.Sampler} :
  (forall (scale : R),
      1 < scale ->
      scale <> 0 /\ 0 < nb_p scale < 1 /\ 0 < 1 - nb_p scale < 1 /\ 0 < nb_scale scale /\
      forall mu, Forall (fun v => 0 < v) mu -> Forall (fun a => 0 < a) (nb_shape mu scale)) /\
  (forall k m : Z,
      (2 <= k <= 100)%Z -> (1 <= m <= 100)%Z ->
      exists p a s,
        F64.negbinom_params [F64.of_Z m] (F64.of_Z k) = Ok (p, [a], s) /\
        (0 <? p)%float = true /\ (p <? 1)%float = true /\
        (0 <? 1 - p)%float = true /\ (1 - p <? 1)%float = true /\
        (0 <? a)%float = true /\ (0 <? s)%float = true) /\
  (forall (m : Z) (u0 : F64.float) (w : F64.world),
      (1 <= m <= 100)%Z ->
      exists a x y w',
        F64.negbinom_params [F64.of_Z m] 1%float = Ok (0%float, [a], 0%float) /\
        PrimFloat.classify a = FloatClass.PInf /\
        F64.negbinom [u0] [F64.of_Z m] 1%float w = Ok (y, w') /\
        F64.trace w' = F64.trace w ++ [F64.GammaCall [a] 0%float 1 x]) /\
  (forall (u mu : list F64.float) (w : F64.world),
      F64.negbinom_params mu 0%float = Raise ZeroDivisionError /\
      F64.negbinom u mu 0%float w = Raise ZeroDivisionError) /\
  (forall (scale : R) (mu : list R),
      scale < 1 -> scale <> 0 -> Forall (fun v => 0 < v) mu ->
      Forall (fun a => a < 0) (nb_shape mu scale) /\ nb_scale scale < 0) /\
  (forall (m : Z) (u : list F64.float) (w : F64.world),
      (1 <= m <= 100)%Z ->
      exists a,
        F64.negbinom_params [F64.of_Z m] 0.5%float = Ok ((-1)%float, [a], (-0.5)%float) /\
        F64.negative a = true /\
        F64.negbinom u [F64.of_Z m] 0.5%float w = Raise ValueError).
Proof.
  split; [| split; [| split; [| split; [| split]]]].
  - intros scale Hs. pose proof (nb_p_range scale Hs) as [Hp0 Hp1].
    split; [lra |]. split; [lra |]. split; [lra |].
    split; [apply nb_scale_pos; exact Hs |].
    intros mu Hmu. apply nb_shape_pos; assumption.
  - intros k m Hk Hm.
    destruct (f64_grid_params k m Hk Hm)
      as (p & a & s & Hrun & H1 & H2 & H3 & H4 & H5 & _ & H6 & _).
    exists p, a, s. repeat split; assumption.
  - intros m u0 w Hm. destruct (f64_scale_one m Hm) as (a & Hpar & Hcl).
    assert (Hneg : F64.negative a = false) by (unfold F64.negative; rewrite Hcl; reflexivity).
    unfold F64.negbinom. rewrite Hpar. cbn [obind].
    unfold F64.np_random_gamma. cbn [existsb]. rewrite Hneg.
    replace (F64.negative 0%float) with false by (vm_compute; reflexivity).
    cbn [orb length F64.broadcast_to Nat.eqb obind].
    destruct (F64.gamma64 [a] 0%float (F64.lib w)) as [x s'].
    cbn [obind fst snd].
    destruct (@f64_broadcast2_single F64.ppf64 u0 x) as (y & Hy). rewrite Hy. cbn [obind].
    exists a, x, y. eexists. split; [reflexivity |]. split; [exact Hcl |].
    split; reflexivity.
  - intros u mu w. split; [apply f64_scale_zero |].
    unfold F64.negbinom. rewrite f64_scale_zero. reflexivity.
  - intros scale mu Hs H0 Hmu.
    split; [apply nb_shape_neg | apply nb_scale_neg]; assumption.
  - intros m u w Hm. destruct (f64_scale_half m Hm) as (a & Hpar & Hneg).
    exists a. split; [exact Hpar |]. split; [exact Hneg |].
    unfold F64.negbinom. rewrite Hpar. cbn [obind].
    unfold F64.np_random_gamma. cbn [existsb]. rewrite Hneg. reflexivity.
Qed.

Lemma negbinom_divisors_and_validation_witness :
  0 < nb_p 10 < 1 /\
  F64.negbinom [0.5%float] [55%float] 0%float F64.stub_world = Raise ZeroDivisionError /\
  F64.negbinom [0.5%float] [55%float] 0.5%float F64.stub_world = Raise ValueError.
Proof.
  destruct (@negbinom_divisors_and_validation F64.stub_sampler)
    as (Hreal & _ & _ & Hzero & _ & Hhalf).
  split; [| split].
  - destruct (Hreal 10) as (_ & H & _); [lra | exact H].
  - exact (proj2 (Hzero [0.5%float] [55%float] F64.stub_world)).
  - destruct (Hhalf 55%Z [0.5%float] F64.stub_world) as (a & _ & _ & H); [lia | exact H].
Defined.

(** ** [negbinom] in binary64: the gamma call and the output *)

Lemma f64_broadcast_to_length (size : nat) (a shp : list F64.float) :
  F64.broadcast_to size a = Ok shp -> length shp = size.
Proof.
  unfold F64.broadcast_to. destruct (Nat.eqb (length a) size) eqn:E.
  - intros H. injection H as H. subst shp. apply Nat.eqb_eq. exact E.
  - destruct a as [| a0 [| a1 a]]; try discriminate.
    intros H. injection H as H. subst shp. apply repeat_length.
Qed.

Lemma f64_broadcast_to_mismatch (size : nat) (a : list F64.float) :
  length a <> size -> length a <> 1%nat -> F64.broadcast_to size a = Raise ValueError.
Proof.
  intros Hsize Hone. unfold F64.broadcast_to.
  rewrite (proj2 (Nat.eqb_neq _ _) Hsize).
  destruct a as [| a0 [| a1 a]]; [reflexivity | simpl in Hone; congruence | reflexivity].
Qed.

Lemma f64_broadcast_to_single (size : nat) (a0 : F64.float) :
  exists shp, F64.broadcast_to size [a0] = Ok shp.
Proof.
  unfold F64.broadcast_to. destruct (Nat.eqb (length [a0]) size); eexists; reflexivity.
Qed.

Lemma f64_params_raise (mu : list F64.float) (scale : F64.float) (e : exn) :
  F64.negbinom_params mu scale = Raise e -> e = ZeroDivisionError.
Proof.
  unfold F64.negbinom_params, F64.py_div.
  destruct (scale =? 0)%float; cbn [obind]; [congruence |].
  destruct (1 - (scale - 1) / scale =? 0)%float; cbn [obind]; congruence.
Qed.

Lemma f64_params_shapes (mu : list F64.float) (scale p s : F64.float) (r : list F64.float) :
  F64.negbinom_params mu scale = Ok (p, r, s) -> length r = length mu.
Proof.
  rewrite f64_params_elementwise.
  destruct (F64.negbinom_params [] scale) as [[[p' r'] s'] | e]; [| discriminate].
  intros H. injection H as _ Hr _. subst r. apply length_map.
Qed.


Section F64Runs.

Context {S : F64.Sampler} {HS : F64.SamplerContracts S}.


(** A call whose parameters pass the sampler's tests returns. *)
Lemma f64_negbinom_returns (u mu : list F64.float) (scale p s : F64.float)
    (r shp : list F64.float) (w : F64.world) :
  F64.negbinom_params mu scale = Ok (p, r, s) ->
  existsb F64.negative r || F64.negative s = false ->
  F64.broadcast_to (length u) r = Ok shp ->
  exists y w', F64.negbinom u mu scale w = Ok (y, w') /\ length y = length u.
Proof.
  intros Hpar Hneg Hb. unfold F64.negbinom. rewrite Hpar. cbn [obind].
  unfold F64.np_random_gamma. rewrite Hneg, Hb. cbn [obind].
  pose proof (F64.gamma64_size shp s (F64.lib w)) as Hx.
  destruct (F64.gamma64 shp s (F64.lib w)) as [x s']. cbn [fst snd obind] in *.
  rewrite (f64_broadcast_to_length _ _ _ Hb) in Hx.
  unfold F64.broadcast2. rewrite <- Hx, Nat.eqb_refl. cbn [obind].
  eexists. eexists. split; [reflexivity |].
  rewrite length_map, length_combine, Hx. apply Nat.min_id.
Qed.

End F64Runs.

Lemma f64_stub_contracts : F64.SamplerContracts F64.stub_sampler.
Proof.
  constructor; cbn.
  - intros a _ _. apply length_map.
  - intros _ _ _ _ _ _. exists 0%Z. split; [lia | vm_compute; reflexivity].
Qed.




(** X4.  The lengths of u and mu in negbinom, for every scale: when the
    mean vector is neither as long as u nor of length one, negbinom
    never returns; it raises ZeroDivisionError where line 46 or line 48
    divides by zero, and ValueError from the gamma call otherwise.  A mean
    vector of length one is broadcast: when the divisions succeed and the
    gamma parameters carry no minus sign, negbinom returns one value per
    entry of u. *)
Theorem negbinom_mean_vector_length {S : F64.Sampler} {HS : F64.SamplerContracts S} :
  (forall (u mu : list F64.float) (scale : F64.float) (w : F64.world),
      length mu <> length u -> length mu <> 1%nat ->
      (F64.negbinom_params mu scale = Raise ZeroDivisionError /\
       F64.negbinom u mu scale w = Raise ZeroDivisionError) \/
      ((exists prs, F64.negbinom_params mu scale = Ok prs) /\
       F64.negbinom u mu scale w = Raise ValueError)) /\
  (forall (u : list F64.float) (mu1 scale p s : F64.float) (r : list F64.float) (w : F64.world),
      F64.negbinom_params [mu1] scale = Ok (p, r, s) ->
      existsb F64.negative r || F64.negative s = false ->
      exists y w', F64.negbinom u [mu1] scale w = Ok (y, w') /\ length y = length u).
Proof.
  split.
  - intros u mu scale w Hsize Hone. unfold F64.negbinom.
    destruct (F64.negbinom_params mu scale) as [[[p r] s] | e] eqn:Hpar.
    + right. split; [eexists; reflexivity |]. cbn [obind].
      unfold F64.np_random_gamma.
      destruct (existsb F64.negative r || F64.negative s); [reflexivity |].
      rewrite f64_broadcast_to_mismatch; [reflexivity | |];
        rewrite (f64_params_shapes _ _ _ _ _ Hpar); assumption.
    + left. rewrite (f64_params_raise _ _ _ Hpar). split; reflexivity.
  - intros u mu1 scale p s r w Hpar Hneg.
    assert (Hr : exists a, r = [a]).
    { pose proof (f64_params_shapes _ _ _ _ _ Hpar) as Hl.
      destruct r as [| a [| a' r]]; try discriminate. exists a. reflexivity. }
    destruct Hr as [a Hr]. subst r.
    destruct (f64_broadcast_to_single (length u) a) as [shp Hb].
    exact (f64_negbinom_returns u [mu1] scale p s [a] shp w Hpar Hneg Hb).
Qed.

Lemma negbinom_mean_vector_length_witness :
  F64.negbinom [0.5%float; 0.25%float; 0.75%float] [55%float; 20%float] 10%float F64.stub_world
    = Raise ValueError /\
  exists y w',
    F64.negbinom [0.5%float; 0.25%float; 0.75%float] [55%float] 10%float F64.stub_world
      = Ok (y, w') /\
    length y = 3%nat.
Proof.
  destruct (@negbinom_mean_vector_length F64.stub_sampler f64_stub_contracts) as [Hbad Hone].
  split.
  - destruct (Hbad [0.5%float; 0.25%float; 0.75%float] [55%float; 20%float] 10%float
                F64.stub_world) as [[Hpar _] | [_ Hrun]].
    + simpl. lia.
    + simpl. lia.
    + vm_compute in Hpar. discriminate Hpar.
    + exact Hrun.
  - destruct (F64.negbinom_params [55%float] 10%float) as [[[p r] s] | e] eqn:Hpar;
      [| vm_compute in Hpar; discriminate Hpar].
    apply (Hone [0.5%float; 0.25%float; 0.75%float] 55%float 10%float p s r F64.stub_world Hpar).
    vm_compute in Hpar. injection Hpar as _ Hr Hs. subst r s. vm_compute. reflexivity.
Defined.
